(** * Condor: pulse source, photon and propagator output

    A shallow embedding of [src/source.py] (classes [Source] and [Photon])
    and of [propagator/propagator.py] (classes [Input] and [Output]).

    Python floats are embedded as real numbers: arithmetic is exact, and the
    only floating-point phenomena kept are the ones the code tests for
    (division by zero raising [ZeroDivisionError], and the non-finite array
    entries that [numpy.isfinite] detects).  Objects are records whose
    attributes that may still be unassigned are [option]s; methods are
    computations in a small monad that threads the object, the raised
    exception if any, and the emitted log records. *)

From Stdlib Require Import Reals Lra.
From stdpp Require Import gmap strings list.

Open Scope R_scope.

(** ** Python values, exceptions and log records *)

Inductive pyval :=
| VFloat (x : R)
| VStr (s : string)
| VNone.

Inductive level := DEBUG | WARNING | ERROR.

Inductive event :=
| Logged (lvl : level) (msg : string)     (* a record handed to a logger *)
| Printed (label : string) (x : R).       (* a [print] statement *)

Inductive exn :=
| SystemExit (code : Z)
| AttributeError (attr : string)
| KeyError (key : string)
| IndexError
| TypeError
| ZeroDivisionError
| UnboundLocalError (name : string)
| RecursionDepthExceeded.

Inductive outcome (A : Type) :=
| Returned (a : A)
| Raised (x : exn).
Arguments Returned {A} a.
Arguments Raised {A} x.

(** ** The method monad

    A method runs on an object of type [S]; it ends by returning or by
    raising, leaves the object in a final state either way, and emits log
    records in order. *)

Record Run (S A : Type) := mkRun {
  result : outcome A;
  final : S;
  trace : list event
}.
Arguments mkRun {S A} result final trace.
Arguments result {S A} r.
Arguments final {S A} r.
Arguments trace {S A} r.

Definition M (S A : Type) : Type := S → Run S A.

#[global] Instance M_ret {S} : MRet (M S) := λ A a s, mkRun (Returned a) s [].

#[global] Instance M_bind {S} : MBind (M S) := λ A B k m s,
  let r := m s in
  match result r with
  | Returned a =>
      let r' := k a (final r) in
      mkRun (result r') (final r') (trace r ++ trace r')
  | Raised x => mkRun (Raised x) (final r) (trace r)
  end.

Definition ret {S A} (a : A) : M S A := mret a.

Definition raise {S A} (x : exn) : M S A := λ s, mkRun (Raised x) s [].

Definition get {S} : M S S := λ s, mkRun (Returned s) s [].
Definition put {S} (s : S) : M S unit := λ _, mkRun (Returned tt) s [].
Definition emit {S} (ev : event) : M S unit := λ s, mkRun (Returned tt) s [ev].

(** Reading an attribute that may not have been assigned yet. *)
Definition attr {S A} (field : S → option A) (name : string) : M S A :=
  s ← get;
  match field s with
  | Some a => ret a
  | None => raise (AttributeError name)
  end.

(** Calling a method of another object [o] that the method does not change
    (or whose change is not kept): the caller's object is untouched. *)
Definition call {S S' A} (o : S') (m : M S' A) : M S A := λ s,
  let r := m o in mkRun (result r) s (trace r).

(** Calling a method of an attribute object, keeping its new state. *)
Definition within {S S' A} (rd : S → S') (wr : S' → S → S) (m : M S' A) : M S A := λ s,
  let r := m (rd s) in mkRun (result r) (wr (final r) s) (trace r).

(** [a / b] on Python floats. *)
Definition py_div {S} (a b : R) : M S R :=
  if Req_dec_T b 0 then raise ZeroDivisionError else ret (a / b).

(** A number is expected where arithmetic is done on a keyword's value.
    The numeric attributes of the records hold real numbers, so a keyword
    value that is only stored ([focus_diameter], [pulse_energy], [energy])
    is converted here as well: for a value that is not a float the
    embedding raises at the assignment that Python would defer to the
    first arithmetic on the attribute. *)
Definition as_float {S} (v : pyval) : M S R :=
  match v with
  | VFloat x => ret x
  | _ => raise TypeError
  end.

(** Modelled from the spec: [utils.log.log] is not among the sources; the
    spec treats logging as an external collaborator that emits a diagnostic
    and lets the caller go on, and the callers in [source.py] that must stop
    call [exit(1)] themselves right after it.  [log(logger.error, msg)] is
    therefore one record at that level. *)
Definition log {S} (lvl : level) (msg : string) : M S unit := emit (Logged lvl msg).

(** [exit(1)]. *)
Definition exit {S A} (code : Z) : M S A := raise (SystemExit code).

(** ** Physical constants

    [scipy.constants] provides the speed of light [c], the Planck constant
    [h] and the elementary charge [e].  Their digits depend on the CODATA
    release that the installed scipy ships, so they are an interface here;
    [CODATA2010] is the release contemporary with the source. *)

Module constants.
Class t := { c : R; h : R; e : R }.
End constants.

Definition CODATA2010 : constants.t :=
  {| constants.c := 299792458;
     constants.h := 6.62606957e-34;
     constants.e := 1.602176565e-19 |}.

(** ** class Photon *)

Record Photon := { _energy : option R }.

(** The object as [__init__] receives it: no attribute assigned. *)
Definition Photon_blank : Photon := {| _energy := None |}.

Section Photon.
Context {K : constants.t}.

Definition set_wavelength (wavelength : R) : M Photon unit :=
  E ← py_div (constants.c * constants.h) wavelength;
  put {| _energy := Some E |}.

Definition get_wavelength : M Photon R :=
  E ← attr _energy "_energy";
  py_div (constants.c * constants.h) E.

(** Returns [None] (Python's) after logging, for an unknown unit. *)
Definition get_energy (unit : string) : M Photon (option R) :=
  if decide (unit = "J") then
    E ← attr _energy "_energy"; ret (Some E)
  else if decide (unit = "eV") then
    E ← attr _energy "_energy";
    q ← py_div E constants.e; ret (Some q)
  else
    log ERROR (unit +:+ " is not a valid energy unit.");; ret None.

Definition set_energy (energy : R) (unit : string) : M Photon () :=
  if decide (unit = "J") then
    put {| _energy := Some energy |}
  else if decide (unit = "eV") then
    put {| _energy := Some (energy * constants.e) |}
  else
    log ERROR (unit +:+ " is not a valid energy unit.").

Definition Photon_init (kwarg : gmap string pyval) : M Photon unit :=
  match kwarg !! "wavelength" with
  | Some v => w ← as_float v; set_wavelength w
  | None =>
    match kwarg !! "energy" with
    | Some v => E ← as_float v; set_energy E "J"
    | None =>
      match kwarg !! "energy_eV" with
      | Some v => E ← as_float v; set_energy E "eV"
      | None =>
        log ERROR "Photon could not be initialized. It needs to be initialized with either the a given photon energy or the wavelength."
      end
    end
  end.

(** The constructor call: [__init__] on a fresh object. *)
Definition Photon_new (kwarg : gmap string pyval) : Run Photon unit :=
  Photon_init kwarg Photon_blank.

End Photon.

(** ** Collaborators of [Source] that are not among the sources *)

Module condortools.

(** Modelled from the spec: [condortools.check_input] is missing; the spec
    describes it as the keyword-set validator that takes the supplied
    keys, the required and the optional keys, and reports the required
    keys that are missing and the supplied keys that are unrecognized
    ([__init__] names its two results [miss_keys] and [ill_keys]). *)
Definition check_input (keys req_keys opt_keys : list string) : list string * list string :=
  (filter (λ k, k ∉ keys) req_keys,
   filter (λ k, k ∉ req_keys ++ opt_keys) keys).

(** The two radial densities that [get_profile] delegates to, as functions
    of the radius and of sigma.  They are missing from the sources and the
    spec gives no formula for them. *)
Class profiles := {
  pseudo_lorentzian_2dnorm : R → R → R;
  gaussian_2dnorm : R → R → R
}.

End condortools.

(** The class [Variation] is missing from the sources.  What [Source] uses of
    it: the constructor, the attribute [_mode], and [get(mean)], which
    returns one realization and advances the sampler. *)
Module Variation.
Class t := {
  state : Type;
  new : pyval → pyval → pyval → state;   (* variation, spread, n *)
  _mode : state → option string;
  get : state → R → R * state
}.
End Variation.

(** ** class Source *)

Section Source.
Context {K : constants.t} {P : condortools.profiles} {V : Variation.t}.

(** Every attribute is [None] until the first assignment to it;
    [_profile_model] may then hold Python's [None] or a model name. *)
Record Source := {
  photon : option Photon;
  focus_diameter : option R;
  pulse_energy_mean : option R;
  _pulse_energy_variation : option Variation.state;
  _profile_model : option (option string);
  pulse_energy : option R
}.

Definition Source_blank : Source :=
  {| photon := None; focus_diameter := None; pulse_energy_mean := None;
     _pulse_energy_variation := None; _profile_model := None; pulse_energy := None |}.

(** Attribute assignments [self.x = v]. *)
Definition assign_photon (v : Photon) : M Source () := λ s,
  mkRun (Returned ()) {| photon := Some v; focus_diameter := focus_diameter s;
    pulse_energy_mean := pulse_energy_mean s;
    _pulse_energy_variation := _pulse_energy_variation s;
    _profile_model := _profile_model s; pulse_energy := pulse_energy s |} [].

Definition assign_focus_diameter (v : R) : M Source () := λ s,
  mkRun (Returned ()) {| photon := photon s; focus_diameter := Some v;
    pulse_energy_mean := pulse_energy_mean s;
    _pulse_energy_variation := _pulse_energy_variation s;
    _profile_model := _profile_model s; pulse_energy := pulse_energy s |} [].

Definition assign_pulse_energy_mean (v : R) : M Source () := λ s,
  mkRun (Returned ()) {| photon := photon s; focus_diameter := focus_diameter s;
    pulse_energy_mean := Some v;
    _pulse_energy_variation := _pulse_energy_variation s;
    _profile_model := _profile_model s; pulse_energy := pulse_energy s |} [].

Definition assign__pulse_energy_variation (v : Variation.state) : M Source () := λ s,
  mkRun (Returned ()) {| photon := photon s; focus_diameter := focus_diameter s;
    pulse_energy_mean := pulse_energy_mean s;
    _pulse_energy_variation := Some v;
    _profile_model := _profile_model s; pulse_energy := pulse_energy s |} [].

Definition assign__profile_model (v : option string) : M Source () := λ s,
  mkRun (Returned ()) {| photon := photon s; focus_diameter := focus_diameter s;
    pulse_energy_mean := pulse_energy_mean s;
    _pulse_energy_variation := _pulse_energy_variation s;
    _profile_model := Some v; pulse_energy := pulse_energy s |} [].

Definition assign_pulse_energy (v : R) : M Source () := λ s,
  mkRun (Returned ()) {| photon := photon s; focus_diameter := focus_diameter s;
    pulse_energy_mean := pulse_energy_mean s;
    _pulse_energy_variation := _pulse_energy_variation s;
    _profile_model := _profile_model s; pulse_energy := Some v |} [].

(** [kwargs[k]], [kwargs.get(k, None)] and [kwargs.keys()]. *)
Definition subscript {S} (kwargs : gmap string pyval) (k : string) : M S pyval :=
  match kwargs !! k with
  | Some v => ret v
  | None => raise (KeyError k)
  end.

Definition get_or_None (kwargs : gmap string pyval) (k : string) : pyval :=
  default VNone (kwargs !! k).

Definition keys (kwargs : gmap string pyval) : list string := (map_to_list kwargs).*1.

(** [for k in ks: body(k)]. *)
Fixpoint for_each {S} (ks : list string) (body : string → M S ()) : M S () :=
  match ks with
  | [] => ret ()
  | k :: ks' => body k;; for_each ks' body
  end.

(** A constructor call [C(...)] inside a method: the new object is the
    value, the caller's object is untouched. *)
Definition construct {S S'} (r : Run S' ()) : M S S' := λ s,
  mkRun (match result r with
         | Returned _ => Returned (final r)
         | Raised x => Raised x
         end) s (trace r).

Definition set_pulse_energy_variation (variation spread n : pyval) : M Source () :=
  assign__pulse_energy_variation (Variation.new variation spread n).

Definition set_profile (profile_model : pyval) : M Source () :=
  match profile_model with
  | VNone => assign__profile_model None
  | VStr s =>
      if decide (s ∈ ["top_hat"; "pseudo_lorentzian"; "gaussian"]) then
        assign__profile_model (Some s)
      else
        log ERROR "Pulse profile model %s is not implemented. Change your configuration and try again.";;
        exit 1
  | VFloat _ =>
      log ERROR "Pulse profile model %s is not implemented. Change your configuration and try again.";;
      exit 1
  end.

Definition Source_init (kwargs : gmap string pyval) : M Source () :=
  let req_keys := ["wavelength"; "focus_diameter"; "pulse_energy"] in
  let opt_keys := ["pulse_energy_variation"; "pulse_energy_spread";
                   "pulse_energy_variation_n"; "profile_model"] in
  let '(miss_keys, ill_keys) := condortools.check_input (keys kwargs) req_keys opt_keys in
  (if bool_decide (0 < length miss_keys)%nat then
     for_each miss_keys (λ k,
       log ERROR ("Cannot initialize Source instance. " +:+ k +:+ " is a necessary keyword."));;
     exit 1
   else ret ());;
  (if bool_decide (0 < length ill_keys)%nat then
     for_each ill_keys (λ k,
       log ERROR ("Cannot initialize Source instance. " +:+ k +:+ " is an illegal keyword."));;
     exit 1
   else ret ());;
  wavelength ← subscript kwargs "wavelength";
  ph ← construct (Photon_new {[ "wavelength" := wavelength ]});
  assign_photon ph;;
  d ← subscript kwargs "focus_diameter";
  d ← as_float d;
  assign_focus_diameter d;;
  (match kwargs !! "pulse_energy" with
   | Some v =>
       (* Maintain depreciated keyword *)
       v ← as_float v; assign_pulse_energy_mean v
   | None =>
       v ← subscript kwargs "pulse_energy_mean";
       v ← as_float v; assign_pulse_energy_mean v
   end);;
  set_pulse_energy_variation (get_or_None kwargs "pulse_energy_variation")
                             (get_or_None kwargs "pulse_energy_spread")
                             (get_or_None kwargs "pulse_energy_variation_n");;
  set_profile (get_or_None kwargs "profile_model");;
  log DEBUG "Source configured".

(** The constructor call: [__init__] on a fresh object. *)
Definition Source_new (kwargs : gmap string pyval) : Run Source () :=
  Source_init kwargs Source_blank.

(** The densities that the closures of [get_profile] compute once the
    focus diameter [d] is read. *)
Definition uniform_density (d : R) (r : R) : R := 1 / (PI * (d / 2) ^ 2).

Definition top_hat_density (d : R) (r : R) : R :=
  if Rlt_dec r (d / 2) then 1 / (PI * (d / 2) ^ 2) else 0.

(** [get_profile] returns a closure over [self]; calling it reads
    [self.focus_diameter] again, and divides Python floats. *)
Definition get_profile : M Source (R → M Source R) :=
  pm ← attr _profile_model "_profile_model";
  match pm with
  | None =>
      (* we always hit with full power *)
      ret (λ r, d ← attr focus_diameter "focus_diameter";
                py_div 1 (PI * (d / 2) ^ 2))
  | Some s =>
      if decide (s = "top_hat") then
        (* focus diameter is diameter of top hat profile *)
        ret (λ r, d ← attr focus_diameter "focus_diameter";
                  if Rlt_dec r (d / 2) then py_div 1 (PI * (d / 2) ^ 2) else ret 0)
      else if decide (s = "pseudo_lorentzian") then
        (* focus diameter is FWHM of lorentzian *)
        d ← attr focus_diameter "focus_diameter";
        let sigma := d / 2 in
        let p : R → M Source R := λ r, ret (condortools.pseudo_lorentzian_2dnorm r sigma) in
        p0 ← p 0;
        emit (Printed "lorentz: p(0)" p0);;
        ret p
      else if decide (s = "gaussian") then
        (* focus diameter is FWHM of gaussian *)
        d ← attr focus_diameter "focus_diameter";
        let sigma := d / (2 * sqrt (2 * ln 2)) in
        let p : R → M Source R := λ r, ret (condortools.gaussian_2dnorm r sigma) in
        p0 ← p 0;
        emit (Printed "gaussian: p(0)" p0);;
        ret p
      else raise (UnboundLocalError "p")
  end.

(** [p] is the density computed by the closure that [get_profile] returns
    on the object [s], and [t] is what [get_profile] prints on the way. *)
Definition profile_of (s : Source) (p : R → R) (t : list event) : Prop :=
  ∃ f : R → M Source R,
    get_profile s = mkRun (Returned f) s t ∧
    ∀ r, f r s = mkRun (Returned (p r)) s [].

(** [position[i]] for the literal indices 1 and 2. *)
Definition item {S} (position : list R) (i : nat) : M S R :=
  match position !! i with
  | Some x => ret x
  | None => raise IndexError
  end.

(** Returns Python's [None] after logging, for an unknown unit. *)
Definition get_intensity (position : list R) (unit : string) : M Source (option R) :=
  y ← item position 1;
  z ← item position 2;
  let r := sqrt (y ^ 2 + z ^ 2) in
  p ← get_profile;
  density ← p r;
  pe ← attr pulse_energy "pulse_energy";
  let I := density * pe in
  if decide (unit = "J/m2") then ret (Some I)
  else if decide (unit = "ph/m2") then
    ph ← attr photon "photon";
    E ← call ph (get_energy "J");
    match E with
    | Some E => I ← py_div I E; ret (Some I)
    | None => raise TypeError
    end
  else if decide (unit = "J/um2") then ret (Some (I * 1e-12))
  else if decide (unit = "mJ/um2") then ret (Some (I * 1e-9))
  else
    log ERROR (unit +:+ " is not a valid unit.");;
    ret None.

(** [depth] is the number of nested calls that the interpreter's recursion
    limit still allows; the source puts no bound of its own on the retry.
    The realization [p] is a real number, so [p <= 0] is decided by the
    order of the reals: a draw that is not a number (for which Python's
    test is False in both branches) is outside this embedding. *)
Fixpoint _next_pulse_energy (depth : nat) : M Source () :=
  match depth with
  | O => raise RecursionDepthExceeded
  | S depth' =>
      v ← attr _pulse_energy_variation "_pulse_energy_variation";
      mean ← attr pulse_energy_mean "pulse_energy_mean";
      let '(p, v') := Variation.get v mean in
      assign__pulse_energy_variation v';;
      (* Non-random *)
      if decide (Variation._mode v' ∈ [None; Some "range"]) then
        if Rle_dec p 0 then
          log ERROR "Pulse energy smaller-equals zero. Change your configuration."
        else
          assign_pulse_energy p
      (* Random *)
      else
        if Rle_dec p 0 then
          log WARNING "Pulse energy smaller-equals zero. Try again.";;
          _next_pulse_energy depth'
        else
          assign_pulse_energy p
  end.

(** The sampler after [n] calls of [get(mean)], the value that call number
    [n] (counted from 0) returns, and the mode read after it. *)
Fixpoint advanced (v : Variation.state) (mean : R) (n : nat) : Variation.state :=
  match n with
  | O => v
  | S n' => advanced (Variation.get v mean).2 mean n'
  end.

Definition realization (v : Variation.state) (mean : R) (n : nat) : R :=
  (Variation.get (advanced v mean n) mean).1.

Definition mode_after (v : Variation.state) (mean : R) (n : nat) : option string :=
  Variation._mode (advanced v mean (S n)).

(** The test [_mode in [None,"range"]] of [_next_pulse_energy]. *)
Definition non_random (mode : option string) : Prop := mode ∈ [None; Some "range"].

(** What [_next_pulse_energy] leaves alone. *)
Definition same_configuration (s s' : Source) : Prop :=
  photon s' = photon s ∧ focus_diameter s' = focus_diameter s ∧
  pulse_energy_mean s' = pulse_energy_mean s ∧ _profile_model s' = _profile_model s.

Definition get_next (depth : nat) : M Source (gmap string R) :=
  _next_pulse_energy depth;;
  pe ← attr pulse_energy "pulse_energy";
  ph ← attr photon "photon";
  w ← call ph get_wavelength;
  ret {[ "pulse_energy" := pe; "wavelength" := w ]}.

End Source.

(** A stand-in for the missing sampler, used to run the code on concrete
    inputs: the mode is the [variation] keyword as given, and the
    realizations climb from mean − spread in steps of spread (so the mean
    itself is returned on every call when no spread is configured). *)
Record ramp := { ramp_mode : option string; ramp_spread : R; ramp_calls : nat }.

Definition ramp_Variation : Variation.t :=
  {| Variation.state := ramp;
     Variation.new := λ variation spread n,
       {| ramp_mode := match variation with VStr s => Some s | _ => None end;
          ramp_spread := match spread with VFloat x => x | _ => 0 end;
          ramp_calls := O |};
     Variation._mode := ramp_mode;
     Variation.get := λ v mean,
       (mean - ramp_spread v + ramp_spread v * INR (ramp_calls v),
        {| ramp_mode := ramp_mode v; ramp_spread := ramp_spread v;
           ramp_calls := S (ramp_calls v) |}) |}.

(** Modelled from the spec: [condortools] is not among the sources, and the
    spec describes [gaussian_2dnorm] as the closed-form 2D-normalized
    Gaussian; this is the normal density of the plane with standard
    deviation [sigma] at the distance [r] from its centre. *)
Definition gaussian_density (r sigma : R) : R :=
  exp (- (r ^ 2 / (2 * sigma ^ 2))) / (2 * PI * sigma ^ 2).

(** A stand-in for the two missing densities, used to run the code on
    concrete inputs: [gaussian_density] for both. *)
Definition gaussian_profiles : condortools.profiles :=
  {| condortools.pseudo_lorentzian_2dnorm := gaussian_density;
     condortools.gaussian_2dnorm := gaussian_density |}.

(** ** The mass of a radial density

    A density [p] that depends on the radius only weighs the ring between
    [r] and [r + dr] by 2πr·p(r)·dr, so its integral over the disc of
    radius [rho] is the Riemann integral of [ring p] from 0 to [rho], and
    its integral over the plane is the limit of that mass as [rho] grows. *)
Definition ring (p : R → R) (r : R) : R := 2 * PI * r * p r.

Definition integrates_over_disc (p : R → R) (rho v : R) : Prop :=
  ∃ pr : Riemann_integrable (ring p) 0 rho, RiemannInt pr = v.

Definition integrates_over_plane (p : R → R) (v : R) : Prop :=
  ∃ mass : R → R,
    (∀ rho, 0 <= rho → integrates_over_disc p rho (mass rho)) ∧
    ∀ eps, 0 < eps → ∃ rho0, ∀ rho, rho0 <= rho → 0 <= rho → Rabs (mass rho - v) < eps.

(** Modelled from the spec: the spec describes the two densities of
    [condortools] as 2D-normalized, that is, each integrates to 1 over the
    plane for every positive [sigma]. *)
Definition normalized_2d `{P : condortools.profiles} : Prop :=
  (∀ sigma, 0 < sigma →
     integrates_over_plane (λ r, condortools.pseudo_lorentzian_2dnorm r sigma) 1) ∧
  (∀ sigma, 0 < sigma →
     integrates_over_plane (λ r, condortools.gaussian_2dnorm r sigma) 1).

(** ** Arrays of diffraction amplitudes

    An entry of an amplitude array is a complex number whose parts are
    floats; a float is a real number or one of the three non-finite values
    that [numpy.isfinite] rejects. *)

Inductive pyfloat :=
| Finite (x : R)
| PlusInf
| MinusInf
| NaN.

Record complex := Complex { re : pyfloat; im : pyfloat }.

Definition array : Type := list (list complex).
Definition real_array : Type := list (list pyfloat).

Module numpy.

Definition isfinite_float (x : pyfloat) : bool :=
  match x with
  | Finite _ => true
  | _ => false
  end.

Definition isfinite (z : complex) : bool :=
  isfinite_float (re z) && isfinite_float (im z).

(** The complex value of the float literal [0.]. *)
Definition zero : complex := Complex (Finite 0) (Finite 0).

(** [abs(z)**2] for one entry: the modulus follows [hypot], which is
    infinite as soon as one part is, and is NaN otherwise when one part
    is. *)
Definition abs_sq (z : complex) : pyfloat :=
  match re z, im z with
  | Finite x, Finite y => Finite (sqrt (x ^ 2 + y ^ 2) ^ 2)
  | PlusInf, _ | MinusInf, _ | _, PlusInf | _, MinusInf => PlusInf
  | _, _ => NaN
  end.

(** The transforms of [numpy.fft], which the source composes and never
    looks inside. *)
Class fft := {
  fftshift : array → array;
  ifftn : array → array
}.

(** On an array with a single entry both transforms are the identity:
    there is nothing to shift, and the inverse transform of one sample is
    that sample. *)
Definition fft_single_entry : fft := {| fftshift := λ A, A; ifftn := λ A, A |}.

End numpy.

(** [A[numpy.isfinite(A)==False] = 0.], as the new content of [A]. *)
Definition zero_non_finite (A : array) : array :=
  map (map (λ z, if numpy.isfinite z then z else numpy.zero)) A.

(** [abs(A)**2]. *)
Definition abs_squared (A : array) : real_array := map (map numpy.abs_sq) A.

(** [l[i]] for a Python integer: a negative index counts from the end, and
    an index outside the list raises [IndexError]. *)
Definition position_of {A} (l : list A) (i : Z) : option nat :=
  let n := Z.of_nat (length l) in
  let j := if bool_decide (i < 0)%Z then (i + n)%Z else i in
  if bool_decide (0 ≤ j < n)%Z then Some (Z.to_nat j) else None.

Definition locate {S A} (l : list A) (i : Z) : M S nat :=
  match position_of l i with
  | Some j => ret j
  | None => raise IndexError
  end.

Definition index {S A} (l : list A) (i : Z) : M S A :=
  j ← locate l i;
  match l !! j with
  | Some x => ret x
  | None => raise IndexError
  end.

(** ** Collaborators of [Input] and [Output] that are not among the sources

    [gentools.Configuration], [Detector], the [Source] that sits next to
    [propagator.py], the three sample classes and [proptools] are missing.
    The classes are opaque types; what the code calls on them is listed in
    [propagator.methods] below. *)

Module propagator.

Class classes := {
  Configuration : Type;
  Detector : Type;
  Source : Type;
  Sample : Type;
  (** a dictionary or the location of a configuration file *)
  configuration_arg : Type
}.

End propagator.

(** The dictionary that [propagate()] returns: the entry ["amplitudes"] and
    the scalar entries. *)
Record outdict := {
  entry_amplitudes : option (list array);
  entries : gmap string pyval
}.

Section Input.
Context {C : propagator.classes}.

Record Input := {
  default_configuration : option string;
  configuration : option propagator.Configuration;
  detector : option propagator.Detector;
  source : option propagator.Source;
  sample : option propagator.Sample;
  _photon_changed : option bool;
  _detector_changed : option bool
}.

Definition Input_blank : Input :=
  {| default_configuration := None; configuration := None; detector := None;
     source := None; sample := None; _photon_changed := None; _detector_changed := None |}.

Definition assign_default_configuration (v : string) : M Input () := λ s,
  mkRun (Returned ()) {| default_configuration := Some v; configuration := configuration s;
    detector := detector s; source := source s; sample := sample s;
    _photon_changed := _photon_changed s; _detector_changed := _detector_changed s |} [].

Definition assign_configuration (v : propagator.Configuration) : M Input () := λ s,
  mkRun (Returned ()) {| default_configuration := default_configuration s; configuration := Some v;
    detector := detector s; source := source s; sample := sample s;
    _photon_changed := _photon_changed s; _detector_changed := _detector_changed s |} [].

Definition assign_detector (v : propagator.Detector) : M Input () := λ s,
  mkRun (Returned ()) {| default_configuration := default_configuration s;
    configuration := configuration s;
    detector := Some v; source := source s; sample := sample s;
    _photon_changed := _photon_changed s; _detector_changed := _detector_changed s |} [].

Definition assign_source (v : propagator.Source) : M Input () := λ s,
  mkRun (Returned ()) {| default_configuration := default_configuration s;
    configuration := configuration s;
    detector := detector s; source := Some v; sample := sample s;
    _photon_changed := _photon_changed s; _detector_changed := _detector_changed s |} [].

Definition assign_sample (v : propagator.Sample) : M Input () := λ s,
  mkRun (Returned ()) {| default_configuration := default_configuration s;
    configuration := configuration s;
    detector := detector s; source := source s; sample := Some v;
    _photon_changed := _photon_changed s; _detector_changed := _detector_changed s |} [].

Definition assign__photon_changed (v : bool) : M Input () := λ s,
  mkRun (Returned ()) {| default_configuration := default_configuration s;
    configuration := configuration s;
    detector := detector s; source := source s; sample := sample s;
    _photon_changed := Some v; _detector_changed := _detector_changed s |} [].

Definition assign__detector_changed (v : bool) : M Input () := λ s,
  mkRun (Returned ()) {| default_configuration := default_configuration s;
    configuration := configuration s;
    detector := detector s; source := source s; sample := sample s;
    _photon_changed := _photon_changed s; _detector_changed := Some v |} [].

(** What the code calls on the missing classes.  A constructor that gets
    [parent=self] runs on the [Input] under construction; [propagate]
    reaches the source and the detector through that parent. *)
Class methods := {
  this_dir : string;
  new_Configuration : propagator.configuration_arg → string → M Input propagator.Configuration;
  confDict : propagator.Configuration → gmap string (gmap string pyval);
  new_Detector : gmap string pyval → M Input propagator.Detector;
  new_Source : gmap string pyval → M Input propagator.Source;
  new_SampleSphere : gmap string pyval → M Input propagator.Sample;
  new_SampleSpheroid : gmap string pyval → M Input propagator.Sample;
  new_SampleMap : gmap string pyval → M Input propagator.Sample;
  propagate : M Input outdict;
  radius : propagator.Sample → option R;
  detect_photons : propagator.Detector → real_array → M Input real_array;
  distance : propagator.Detector → R;
  get_pixel_size : propagator.Detector → string → R;
  get_minimum_center_edge_distance : propagator.Detector → R;
  source_photon_get_wavelength : propagator.Source → M Input R;
  get_nyquist_pixel_size : R → R → R → R;
  get_max_crystallographic_resolution : R → R → R → R
}.

Context {Meth : methods}.

(** [C[section]] and [C[section][key]]. *)
Definition section_of {S} (confDict : gmap string (gmap string pyval)) (name : string)
  : M S (gmap string pyval) :=
  match confDict !! name with
  | Some kw => ret kw
  | None => raise (KeyError name)
  end.

Definition is_str (v : pyval) (s : string) : bool :=
  match v with
  | VStr s' => bool_decide (s' = s)
  | _ => false
  end.

Definition _reconfigure (configuration : propagator.configuration_arg) : M Input () :=
  dflt ← attr default_configuration "default_configuration";
  cfg ← new_Configuration configuration dflt;
  assign_configuration cfg;;
  let C := confDict cfg in
  kw ← section_of C "detector";
  det ← new_Detector kw;
  assign_detector det;;
  kw ← section_of C "source";
  src ← new_Source kw;
  assign_source src;;
  kw ← section_of C "sample";
  ty ← subscript kw "sample_type";
  if is_str ty "uniform_sphere" then
    smp ← new_SampleSphere kw; assign_sample smp
  else if is_str ty "uniform_spheroid" then
    smp ← new_SampleSpheroid kw; assign_sample smp
  else if is_str ty "map3d" then
    smp ← new_SampleMap kw; assign_sample smp
  else
    emit (Logged ERROR "%s is not a valid sample type.");;
    ret ().

Definition Input_init (configuration : propagator.configuration_arg) : M Input () :=
  assign_default_configuration (this_dir +:+ "/data/default.conf");;
  _reconfigure configuration;;
  assign__photon_changed false;;
  assign__detector_changed false.

Definition Input_new (configuration : propagator.configuration_arg) : Run Input () :=
  Input_init configuration Input_blank.

(** *** class Output *)

(** The argument of [Output(...)] is any Python object. *)
Inductive pyobject :=
| AnInput (input : Input)
| Other (v : pyval).

Record Output := {
  input_object : option Input;
  amplitudes : option (list array);
  sample_euler_angle_0 : option pyval;
  sample_euler_angle_1 : option pyval;
  sample_euler_angle_2 : option pyval;
  sample_diameter : option pyval
}.

Definition Output_blank : Output :=
  {| input_object := None; amplitudes := None; sample_euler_angle_0 := None;
     sample_euler_angle_1 := None; sample_euler_angle_2 := None; sample_diameter := None |}.

Definition assign_input_object (v : Input) : M Output () := λ s,
  mkRun (Returned ()) {| input_object := Some v; amplitudes := amplitudes s;
    sample_euler_angle_0 := sample_euler_angle_0 s;
    sample_euler_angle_1 := sample_euler_angle_1 s;
    sample_euler_angle_2 := sample_euler_angle_2 s;
    sample_diameter := sample_diameter s |} [].

Definition assign_amplitudes (v : list array) : M Output () := λ s,
  mkRun (Returned ()) {| input_object := input_object s; amplitudes := Some v;
    sample_euler_angle_0 := sample_euler_angle_0 s;
    sample_euler_angle_1 := sample_euler_angle_1 s;
    sample_euler_angle_2 := sample_euler_angle_2 s;
    sample_diameter := sample_diameter s |} [].

Definition assign_sample_euler_angle_0 (v : pyval) : M Output () := λ s,
  mkRun (Returned ()) {| input_object := input_object s; amplitudes := amplitudes s;
    sample_euler_angle_0 := Some v;
    sample_euler_angle_1 := sample_euler_angle_1 s;
    sample_euler_angle_2 := sample_euler_angle_2 s;
    sample_diameter := sample_diameter s |} [].

Definition assign_sample_euler_angle_1 (v : pyval) : M Output () := λ s,
  mkRun (Returned ()) {| input_object := input_object s; amplitudes := amplitudes s;
    sample_euler_angle_0 := sample_euler_angle_0 s;
    sample_euler_angle_1 := Some v;
    sample_euler_angle_2 := sample_euler_angle_2 s;
    sample_diameter := sample_diameter s |} [].

Definition assign_sample_euler_angle_2 (v : pyval) : M Output () := λ s,
  mkRun (Returned ()) {| input_object := input_object s; amplitudes := amplitudes s;
    sample_euler_angle_0 := sample_euler_angle_0 s;
    sample_euler_angle_1 := sample_euler_angle_1 s;
    sample_euler_angle_2 := Some v;
    sample_diameter := sample_diameter s |} [].

Definition assign_sample_diameter (v : pyval) : M Output () := λ s,
  mkRun (Returned ()) {| input_object := input_object s; amplitudes := amplitudes s;
    sample_euler_angle_0 := sample_euler_angle_0 s;
    sample_euler_angle_1 := sample_euler_angle_1 s;
    sample_euler_angle_2 := sample_euler_angle_2 s;
    sample_diameter := Some v |} [].

(** A method of the stored [Input] object (or of an object behind it) that
    may change it: the change is kept in [self.input_object]. *)
Definition on_input {A} (m : M Input A) : M Output A := λ s,
  match input_object s with
  | Some inp =>
      let r := m inp in
      mkRun (result r)
            {| input_object := Some (final r); amplitudes := amplitudes s;
               sample_euler_angle_0 := sample_euler_angle_0 s;
               sample_euler_angle_1 := sample_euler_angle_1 s;
               sample_euler_angle_2 := sample_euler_angle_2 s;
               sample_diameter := sample_diameter s |}
            (trace r)
  | None => mkRun (Raised (AttributeError "input_object")) s []
  end.

(** The clock readings around the propagation only feed the debug record;
    the record is kept with its format string. *)
Definition Output_init (input : pyobject) : M Output () :=
  match input with
  | Other _ =>
      emit (Logged ERROR "Illegal input. Argument has to be of instance Input.");;
      ret ()
  | AnInput input =>
      assign_input_object input;;
      emit (Logged DEBUG "Propagation started.");;
      outdict ← on_input (_ ← attr sample "sample"; propagate);
      (match entry_amplitudes outdict with
       | Some a => assign_amplitudes a
       | None => raise (KeyError "amplitudes")
       end);;
      assign_sample_euler_angle_0 (get_or_None (entries outdict) "euler_angle_0");;
      assign_sample_euler_angle_1 (get_or_None (entries outdict) "euler_angle_1");;
      assign_sample_euler_angle_2 (get_or_None (entries outdict) "euler_angle_2");;
      assign_sample_diameter (get_or_None (entries outdict) "sample_diameter");;
      emit (Logged DEBUG "Propagation finished (time = %f sec)")
  end.

Definition Output_new (input : pyobject) : Run Output () :=
  Output_init input Output_blank.

Definition get_intensity_pattern (i : Z) : M Output real_array :=
  det ← on_input (attr detector "detector");
  a ← attr amplitudes "amplitudes";
  A ← index a i;
  on_input (detect_photons det (abs_squared A)).

(** [A] is the stored array itself, not a copy: the masked assignment
    overwrites entries of [self.amplitudes[i]], and the transform then
    reads [self.amplitudes[i]] again. *)
Definition get_real_space_image {F : numpy.fft} (i : Z) : M Output array :=
  a ← attr amplitudes "amplitudes";
  j ← locate a i;
  assign_amplitudes (alter zero_non_finite j a);;
  a ← attr amplitudes "amplitudes";
  A ← index a i;
  ret (numpy.fftshift (numpy.ifftn (numpy.fftshift A))).

(** Returns Python's [None] when the sample has no radius. *)
Definition get_linear_sampling_ratio : M Output (option R) :=
  smp ← on_input (attr sample "sample");
  match radius smp with
  | None => ret None
  | Some _ =>
      det ← on_input (attr detector "detector");
      src ← on_input (attr source "source");
      w ← on_input (source_photon_get_wavelength src);
      smp ← on_input (attr sample "sample");
      match radius smp with
      | None => raise TypeError
      | Some rad =>
          let pN := get_nyquist_pixel_size (distance det) w (PI * rad ^ 2) in
          det ← on_input (attr detector "detector");
          let pD := get_pixel_size det "binned" in
          q ← py_div pN pD; ret (Some q)
      end
  end.

Definition get_full_period_edge_resolution : M Output R :=
  src ← on_input (attr source "source");
  w ← on_input (source_photon_get_wavelength src);
  det ← on_input (attr detector "detector");
  let Y := get_minimum_center_edge_distance det in
  det ← on_input (attr detector "detector");
  ret (get_max_crystallographic_resolution w Y (distance det)).

(** A method that leaves the stored amplitudes as they are, however it ends. *)
Definition keeps_amplitudes {A} (m : M Output A) : Prop :=
  ∀ o, amplitudes (final (m o)) = amplitudes o.

End Input.

(** Stand-ins for the missing classes, used to run the code on concrete
    inputs.  A configuration is the dictionary it was given; a detector, a
    source and a sample are the keywords they were built from (a sample
    also remembers which class built it); every constructor returns.  The
    detector reports the intensity itself as photon counts, the sample has
    no radius and propagates to a single one-pixel image. *)
Definition bare_classes : propagator.classes :=
  {| propagator.Configuration := gmap string (gmap string pyval);
     propagator.Detector := gmap string pyval;
     propagator.Source := gmap string pyval;
     propagator.Sample := string * gmap string pyval;
     propagator.configuration_arg := gmap string (gmap string pyval) |}.

Definition bare_methods : @methods bare_classes :=
  {| this_dir := "/opt/propagator";
     new_Configuration := λ (c : @propagator.configuration_arg bare_classes) _,
       ret (c : @propagator.Configuration bare_classes);
     confDict := λ (c : @propagator.Configuration bare_classes), c;
     new_Detector := λ kw, ret (kw : @propagator.Detector bare_classes);
     new_Source := λ kw, ret (kw : @propagator.Source bare_classes);
     new_SampleSphere := λ kw, ret (("SampleSphere", kw) : @propagator.Sample bare_classes);
     new_SampleSpheroid := λ kw, ret (("SampleSpheroid", kw) : @propagator.Sample bare_classes);
     new_SampleMap := λ kw, ret (("SampleMap", kw) : @propagator.Sample bare_classes);
     propagate := ret {| entry_amplitudes := Some [[[numpy.zero]]]; entries := ∅ |};
     radius := λ _, None;
     detect_photons := λ _ I, ret I;
     distance := λ _, 1;
     get_pixel_size := λ _ _, 1;
     get_minimum_center_edge_distance := λ _, 1;
     source_photon_get_wavelength := λ _, ret 1;
     get_nyquist_pixel_size := λ _ _ _, 1;
     get_max_crystallographic_resolution := λ _ _ _, 1 |}.

(** A configuration whose sample type is none of the three known ones. *)
Definition cube_configuration : gmap string (gmap string pyval) :=
  {[ "detector" := ∅; "source" := ∅;
     "sample" := {[ "sample_type" := VStr "cube" ]} ]}.

(** An output holding one image of one pixel, whose amplitude is NaN, on an
    input that has a detector. *)
Definition nan_input : @Input bare_classes :=
  {| default_configuration := Some "/opt/propagator/data/default.conf";
     configuration := Some (cube_configuration : @propagator.Configuration bare_classes);
     detector := Some (∅ : @propagator.Detector bare_classes);
     source := Some (∅ : @propagator.Source bare_classes);
     sample := None;
     _photon_changed := Some false; _detector_changed := Some false |}.

Definition nan_output : @Output bare_classes :=
  {| input_object := Some nan_input;
     amplitudes := Some [[[Complex NaN (Finite 0)]]];
     sample_euler_angle_0 := Some VNone; sample_euler_angle_1 := Some VNone;
     sample_euler_angle_2 := Some VNone; sample_diameter := Some VNone |}.

(** ** Concrete inputs

    Keyword dictionaries and objects on which the code is run below.  The
    sampler is [ramp_Variation], the constants are [CODATA2010] and the
    densities are [gaussian_profiles]. *)

Definition sweep_kwargs : gmap string pyval :=
  {[ "wavelength" := VFloat 1e-10; "focus_diameter" := VFloat 1e-6;
     "pulse_energy" := VFloat (-1);
     "pulse_energy_variation" := VStr "range"; "pulse_energy_spread" := VFloat (-3) ]}.

Definition sweep_source : Source (V := ramp_Variation) :=
  final (@Source_new CODATA2010 ramp_Variation sweep_kwargs).

Definition normal_kwargs : gmap string pyval :=
  {[ "wavelength" := VFloat 1e-10; "focus_diameter" := VFloat 1e-6;
     "pulse_energy" := VFloat 1;
     "pulse_energy_variation" := VStr "normal"; "pulse_energy_spread" := VFloat 2 ]}.

Definition normal_source : Source (V := ramp_Variation) :=
  final (@Source_new CODATA2010 ramp_Variation normal_kwargs).

(** The keywords of the spec's own example, with the mean under its new name. *)
Definition mean_kwargs : gmap string pyval :=
  {[ "wavelength" := VFloat 1e-10; "focus_diameter" := VFloat 1e-6;
     "pulse_energy_mean" := VFloat 1e-3 ]}.

Definition top_hat_kwargs : gmap string pyval :=
  {[ "wavelength" := VFloat 1e-10; "focus_diameter" := VFloat 1e-6;
     "pulse_energy" := VFloat 1e-3; "profile_model" := VStr "top_hat" ]}.

(** A source with the top-hat profile, after its first shot. *)
Definition top_hat_source : Source (V := ramp_Variation) :=
  final (@_next_pulse_energy ramp_Variation 1000
           (final (@Source_new CODATA2010 ramp_Variation top_hat_kwargs))).

Definition uniform_kwargs : gmap string pyval :=
  {[ "wavelength" := VFloat 1e-10; "focus_diameter" := VFloat 2;
     "pulse_energy" := VFloat 1e-3 ]}.

(** A source with the default profile and focus diameter 2, after its first shot. *)
Definition uniform_source : Source (V := ramp_Variation) :=
  final (@_next_pulse_energy ramp_Variation 1000
           (final (@Source_new CODATA2010 ramp_Variation uniform_kwargs))).

(** A source in the default mode whose mean pulse energy is not positive,
    before any shot. *)
Definition cold_kwargs : gmap string pyval :=
  {[ "wavelength" := VFloat 1e-10; "focus_diameter" := VFloat 1e-6;
     "pulse_energy" := VFloat (-1) ]}.

Definition cold_source : Source (V := ramp_Variation) :=
  final (@Source_new CODATA2010 ramp_Variation cold_kwargs).

(** A configuration whose sample is a sphere, and one without a sample
    section. *)
Definition sphere_configuration : gmap string (gmap string pyval) :=
  {[ "detector" := ∅; "source" := ∅;
     "sample" := {[ "sample_type" := VStr "uniform_sphere" ]} ]}.

Definition bare_configuration : gmap string (gmap string pyval) :=
  {[ "detector" := ∅; "source" := ∅ ]}.

(** The input that [sphere_configuration] is built into. *)
Definition sphere_input : @Input bare_classes :=
  {| default_configuration := Some "/opt/propagator/data/default.conf";
     configuration := Some (sphere_configuration : @propagator.Configuration bare_classes);
     detector := Some (∅ : @propagator.Detector bare_classes);
     source := Some (∅ : @propagator.Source bare_classes);
     sample := Some (("SampleSphere", {[ "sample_type" := VStr "uniform_sphere" ]})
                     : @propagator.Sample bare_classes);
     _photon_changed := Some false; _detector_changed := Some false |}.

(** The stand-in classes with a propagation that returns one image of one
    pixel whose amplitude is NaN. *)
Definition nan_methods : @methods bare_classes :=
  {| this_dir := "/opt/propagator";
     new_Configuration := λ (c : @propagator.configuration_arg bare_classes) _,
       ret (c : @propagator.Configuration bare_classes);
     confDict := λ (c : @propagator.Configuration bare_classes), c;
     new_Detector := λ kw, ret (kw : @propagator.Detector bare_classes);
     new_Source := λ kw, ret (kw : @propagator.Source bare_classes);
     new_SampleSphere := λ kw, ret (("SampleSphere", kw) : @propagator.Sample bare_classes);
     new_SampleSpheroid := λ kw, ret (("SampleSpheroid", kw) : @propagator.Sample bare_classes);
     new_SampleMap := λ kw, ret (("SampleMap", kw) : @propagator.Sample bare_classes);
     propagate := ret {| entry_amplitudes := Some [[[Complex NaN (Finite 0)]]]; entries := ∅ |};
     radius := λ _, None;
     detect_photons := λ _ I, ret I;
     distance := λ _, 1;
     get_pixel_size := λ _ _, 1;
     get_minimum_center_edge_distance := λ _, 1;
     source_photon_get_wavelength := λ _, ret 1;
     get_nyquist_pixel_size := λ _ _ _, 1;
     get_max_crystallographic_resolution := λ _ _ _, 1 |}.

(** The output constructed from the input that [sphere_configuration] is
    built into, with that propagation. *)
Definition constructed_output : @Output bare_classes :=
  final (@Output_new bare_classes nan_methods
           (AnInput (final (@Input_new bare_classes nan_methods sphere_configuration)))).
(** * Properties *)

(** ** Evaluation of the monad *)

Lemma py_div_nonzero {S} (a b : R) (s : S) :
  b ≠ 0 → py_div a b s = mkRun (Returned (a / b)) s [].
Proof. intros Hb. unfold py_div. by destruct (Req_dec_T b 0). Qed.

Lemma py_div_zero {S} (a : R) (s : S) :
  py_div a 0 s = mkRun (Raised ZeroDivisionError) s [].
Proof. unfold py_div. by destruct (Req_dec_T 0 0). Qed.

Lemma bind_run {S A B} (m : M S A) (k : A → M S B) (s : S) :
  (m ≫= k) s =
  match result (m s) with
  | Returned a => mkRun (result (k a (final (m s)))) (final (k a (final (m s))))
                        (trace (m s) ++ trace (k a (final (m s))))
  | Raised x => mkRun (Raised x) (final (m s)) (trace (m s))
  end.
Proof. reflexivity. Qed.

Lemma bind_returned {S A B} (m : M S A) (k : A → M S B) (s s' : S) (a : A) :
  m s = mkRun (Returned a) s' [] → (m ≫= k) s = k a s'.
Proof. intros E. rewrite bind_run, E. simpl. by destruct (k a s'). Qed.

Lemma bind_step {S A B} (m : M S A) (k : A → M S B) (s s' : S) (a : A) (t : list event) :
  m s = mkRun (Returned a) s' t →
  (m ≫= k) s = mkRun (result (k a s')) (final (k a s')) (t ++ trace (k a s')).
Proof. intros E. by rewrite bind_run, E. Qed.

Lemma bind_raised {S A B} (m : M S A) (k : A → M S B) (s s' : S) (x : exn) (t : list event) :
  m s = mkRun (Raised x) s' t → (m ≫= k) s = mkRun (Raised x) s' t.
Proof. intros E. by rewrite bind_run, E. Qed.

Lemma attr_assigned {S A} (field : S → option A) (name : string) (s : S) (a : A) :
  field s = Some a → attr field name s = mkRun (Returned a) s [].
Proof. intros E. unfold attr. erewrite bind_returned by reflexivity. by rewrite E. Qed.

Lemma attr_unassigned {S A} (field : S → option A) (name : string) (s : S) :
  field s = None → attr field name s = mkRun (Raised (AttributeError name)) s [].
Proof. intros E. unfold attr. erewrite bind_returned by reflexivity. by rewrite E. Qed.

Lemma bind_ret {S A B} (a : A) (k : A → M S B) (s : S) : (ret a ≫= k) s = k a s.
Proof. by apply bind_returned. Qed.

Lemma bind_attr {S A B} (field : S → option A) (name : string) (k : A → M S B) (s : S) (a : A) :
  field s = Some a → (attr field name ≫= k) s = k a s.
Proof. intros E. by apply bind_returned, attr_assigned. Qed.

Lemma bind_attr_unassigned {S A B} (field : S → option A) (name : string) (k : A → M S B) (s : S) :
  field s = None → (attr field name ≫= k) s = mkRun (Raised (AttributeError name)) s [].
Proof. intros E. by apply bind_raised, attr_unassigned. Qed.

Lemma bind_py_div {S B} (a b : R) (k : R → M S B) (s : S) :
  b ≠ 0 → (py_div a b ≫= k) s = k (a / b) s.
Proof. intros E. by apply bind_returned, py_div_nonzero. Qed.

(** Comparisons of string literals. *)
Ltac str_decide :=
  cbv beta iota;
  repeat match goal with
  | |- context [decide (?a = ?b)] =>
      destruct (decide (a = b)) as [?Heq|?Hne];
      [try discriminate|try congruence]
  end.

(** Lookups in keyword dictionaries written out with string literals. *)
Ltac lookup_kw :=
  repeat first
    [ rewrite lookup_insert_eq
    | rewrite lookup_insert_ne by (intro; discriminate)
    | rewrite lookup_singleton_eq
    | rewrite lookup_singleton_ne by (intro; discriminate)
    | rewrite lookup_empty ];
  try reflexivity.

Ltac codata := cbn [constants.c constants.h constants.e CODATA2010]; lra.

(** ** Photon *)

Section PhotonFacts.
Context {K : constants.t}.
Hypothesis c_pos : 0 < constants.c.
Hypothesis h_pos : 0 < constants.h.

Lemma ch_nonzero : constants.c * constants.h ≠ 0.
Proof. apply Rmult_integral_contrapositive_currified; lra. Qed.

Lemma Photon_new_wavelength (w : R) :
  w ≠ 0 →
  Photon_new {[ "wavelength" := VFloat w ]} =
  mkRun (Returned ()) {| _energy := Some (constants.c * constants.h / w) |} [].
Proof.
  intros Hw. unfold Photon_new, Photon_init.
  rewrite lookup_singleton_eq. unfold as_float.
  erewrite bind_returned by reflexivity.
  unfold set_wavelength.
  erewrite bind_returned by (by apply py_div_nonzero).
  reflexivity.
Qed.

Lemma get_wavelength_energy (E : R) :
  E ≠ 0 →
  get_wavelength {| _energy := Some E |} =
  mkRun (Returned (constants.c * constants.h / E)) {| _energy := Some E |} [].
Proof.
  intros HE. unfold get_wavelength.
  erewrite bind_returned by reflexivity.
  by apply py_div_nonzero.
Qed.

End PhotonFacts.

Section PhotonClaims.
Context {K : constants.t}.

(** C9.  For every positive wavelength, a photon constructed from that
    wavelength stores the energy c·h/wavelength, and reading the wavelength
    back returns exactly the wavelength it was constructed from. *)
Theorem Photon_wavelength_round_trip (w : R) :
  0 < constants.c → 0 < constants.h → 0 < w →
  let ph := Photon_new {[ "wavelength" := VFloat w ]} in
  result ph = Returned () ∧
  _energy (final ph) = Some (constants.c * constants.h / w) ∧
  result (get_wavelength (final ph)) = Returned w.
Proof.
  intros Hc Hh Hw ph. subst ph.
  rewrite Photon_new_wavelength by lra. cbn [result final _energy].
  split; [done|]. split; [done|].
  assert (Hch := ch_nonzero Hc Hh).
  rewrite get_wavelength_energy.
  - cbn [result]. f_equal. field. split; lra.
  - unfold Rdiv. apply Rmult_integral_contrapositive_currified; [done|].
    apply Rinv_neq_0_compat. lra.
Qed.

(** The first keyword present among wavelength, energy, energy_eV decides
    the stored energy; the later ones are not looked at. *)
Lemma Photon_new_by_wavelength (kwarg : gmap string pyval) (w : R) :
  kwarg !! "wavelength" = Some (VFloat w) → w ≠ 0 →
  Photon_new kwarg = mkRun (Returned ()) {| _energy := Some (constants.c * constants.h / w) |} [].
Proof.
  intros Hk Hw. unfold Photon_new, Photon_init. rewrite Hk.
  unfold as_float. erewrite bind_returned by reflexivity.
  unfold set_wavelength.
  erewrite bind_returned by (by apply py_div_nonzero).
  reflexivity.
Qed.

Lemma Photon_new_by_energy (kwarg : gmap string pyval) (E : R) :
  kwarg !! "wavelength" = None →
  kwarg !! "energy" = Some (VFloat E) →
  Photon_new kwarg = mkRun (Returned ()) {| _energy := Some E |} [].
Proof.
  intros Hw HE. unfold Photon_new, Photon_init. rewrite Hw, HE.
  unfold as_float. erewrite bind_returned by reflexivity.
  reflexivity.
Qed.

Lemma Photon_new_by_energy_eV (kwarg : gmap string pyval) (E : R) :
  kwarg !! "wavelength" = None →
  kwarg !! "energy" = None →
  kwarg !! "energy_eV" = Some (VFloat E) →
  Photon_new kwarg = mkRun (Returned ()) {| _energy := Some (E * constants.e) |} [].
Proof.
  intros Hw HE HeV. unfold Photon_new, Photon_init. rewrite Hw, HE, HeV.
  unfold as_float. erewrite bind_returned by reflexivity.
  reflexivity.
Qed.

Lemma Photon_new_without_keyword (kwarg : gmap string pyval) :
  kwarg !! "wavelength" = None →
  kwarg !! "energy" = None →
  kwarg !! "energy_eV" = None →
  Photon_new kwarg =
  mkRun (Returned ()) Photon_blank
    [Logged ERROR "Photon could not be initialized. It needs to be initialized with either the a given photon energy or the wavelength."].
Proof.
  intros Hw HE HeV. unfold Photon_new, Photon_init. by rewrite Hw, HE, HeV.
Qed.

(** C5, as the code has it.  Construction never fails on the number of
    keywords.  It takes the first keyword present in the order wavelength,
    energy, energy_eV and ignores the others, storing c·h/wavelength, the
    energy, or the energy times the elementary charge; the stored energy is
    positive exactly when the supplied number is.  With none of the three
    keywords it logs an error and returns a photon whose energy is not
    assigned. *)
Theorem Photon_init_first_keyword_wins (kwarg : gmap string pyval) (x : R) :
  0 < constants.c → 0 < constants.h → 0 < constants.e →
  (kwarg !! "wavelength" = Some (VFloat x) → x ≠ 0 →
     result (Photon_new kwarg) = Returned () ∧
     _energy (final (Photon_new kwarg)) = Some (constants.c * constants.h / x) ∧
     (0 < constants.c * constants.h / x ↔ 0 < x)) ∧
  (kwarg !! "wavelength" = None → kwarg !! "energy" = Some (VFloat x) →
     result (Photon_new kwarg) = Returned () ∧
     _energy (final (Photon_new kwarg)) = Some x) ∧
  (kwarg !! "wavelength" = None → kwarg !! "energy" = None →
   kwarg !! "energy_eV" = Some (VFloat x) →
     result (Photon_new kwarg) = Returned () ∧
     _energy (final (Photon_new kwarg)) = Some (x * constants.e) ∧
     (0 < x * constants.e ↔ 0 < x)) ∧
  (kwarg !! "wavelength" = None → kwarg !! "energy" = None →
   kwarg !! "energy_eV" = None →
     result (Photon_new kwarg) = Returned () ∧
     _energy (final (Photon_new kwarg)) = None ∧
     ∃ msg, trace (Photon_new kwarg) = [Logged ERROR msg]).
Proof.
  intros Hc Hh He. repeat split.
  - by rewrite (Photon_new_by_wavelength _ x).
  - by rewrite (Photon_new_by_wavelength _ x).
  - intros Hpos. destruct (Rlt_or_le 0 x) as [|Hle]; [done|].
    assert (Hx : x < 0) by lra.
    assert (0 < constants.c * constants.h) by (by apply Rmult_lt_0_compat).
    assert (/ x < 0) by (by apply Rinv_lt_0_compat).
    unfold Rdiv in Hpos. nra.
  - intros Hx. apply Rdiv_lt_0_compat; [by apply Rmult_lt_0_compat|done].
  - by rewrite (Photon_new_by_energy _ x).
  - by rewrite (Photon_new_by_energy _ x).
  - by rewrite (Photon_new_by_energy_eV _ x).
  - by rewrite (Photon_new_by_energy_eV _ x).
  - intros Hpos. nra.
  - intros Hx. by apply Rmult_lt_0_compat.
  - by rewrite Photon_new_without_keyword.
  - by rewrite Photon_new_without_keyword.
  - rewrite Photon_new_without_keyword by done. eauto.
Qed.

End PhotonClaims.

(** ** Source: construction *)

Lemma elem_of_keys (kwargs : gmap string pyval) (k : string) :
  k ∈ keys kwargs ↔ is_Some (kwargs !! k).
Proof.
  unfold keys. rewrite list_elem_of_fmap. split.
  - intros [[k' v] [-> Hin]]. apply elem_of_map_to_list in Hin. eauto.
  - intros [v Hv]. exists (k, v). split; [done|]. by apply elem_of_map_to_list.
Qed.

Lemma for_each_log {S} (ks : list string) (f : string → string) (s : S) :
  for_each ks (λ k, log ERROR (f k)) s =
  mkRun (Returned ()) s (map (λ k, Logged ERROR (f k)) ks).
Proof.
  induction ks as [|k ks IH]; [done|].
  cbn [for_each]. rewrite bind_run. cbn. rewrite IH. done.
Qed.

Lemma filter_none {A} (Q : A → Prop) `{∀ x, Decision (Q x)} (l : list A) :
  (∀ x, x ∈ l → ¬ Q x) → filter Q l = [].
Proof.
  induction l as [|x l IH]; intros Hall; [done|].
  rewrite filter_cons_False by (apply Hall; left).
  apply IH. intros y Hy. apply Hall. by right.
Qed.

Lemma focus_area_nonzero (d : R) : d ≠ 0 → PI * (d / 2) ^ 2 ≠ 0.
Proof.
  intros Hd. apply Rmult_integral_contrapositive_currified; [apply PI_neq0|].
  apply pow_nonzero. lra.
Qed.

Section SourceFacts.
Context {K : constants.t} {P : condortools.profiles} {V : Variation.t}.

(** A missing required keyword stops the construction with [exit(1)], after
    one error record per missing keyword. *)
Lemma Source_new_missing (kwargs : gmap string pyval) (k : string) :
  k ∈ ["wavelength"; "focus_diameter"; "pulse_energy"] → kwargs !! k = None →
  result (Source_new kwargs) = Raised (SystemExit 1) ∧
  Logged ERROR ("Cannot initialize Source instance. " +:+ k +:+ " is a necessary keyword.")
    ∈ trace (Source_new kwargs).
Proof.
  intros Hreq Hk. unfold Source_new, Source_init, condortools.check_input.
  cbv zeta.
  set (miss := filter _ ["wavelength"; "focus_diameter"; "pulse_energy"]).
  assert (Hin : k ∈ miss).
  { subst miss. apply list_elem_of_filter. split; [|done].
    rewrite elem_of_keys, Hk. by intros [? ?]. }
  rewrite bind_run.
  assert (Hlen : (0 < length miss)%nat).
  { destruct miss; [by apply elem_of_nil in Hin|simpl; lia]. }
  rewrite bool_decide_eq_true_2 by done.
  rewrite (bind_run (for_each _ _)), for_each_log. cbn.
  split; [done|].
  rewrite app_nil_r. apply list_elem_of_fmap. by exists k.
Qed.

Lemma Source_new_ok (kwargs : gmap string pyval) (w d pe : R) (pm : option string) :
  w ≠ 0 →
  kwargs !! "wavelength" = Some (VFloat w) →
  kwargs !! "focus_diameter" = Some (VFloat d) →
  kwargs !! "pulse_energy" = Some (VFloat pe) →
  dom kwargs ⊆ list_to_set (["wavelength"; "focus_diameter"; "pulse_energy"] ++
    ["pulse_energy_variation"; "pulse_energy_spread"; "pulse_energy_variation_n"; "profile_model"]) →
  (pm = None ∧ get_or_None kwargs "profile_model" = VNone ∨
   ∃ s, pm = Some s ∧ get_or_None kwargs "profile_model" = VStr s ∧
        s ∈ ["top_hat"; "pseudo_lorentzian"; "gaussian"]) →
  Source_new kwargs =
  mkRun (Returned ())
    {| photon := Some {| _energy := Some (constants.c * constants.h / w) |};
       focus_diameter := Some d;
       pulse_energy_mean := Some pe;
       _pulse_energy_variation :=
         Some (Variation.new (get_or_None kwargs "pulse_energy_variation")
                             (get_or_None kwargs "pulse_energy_spread")
                             (get_or_None kwargs "pulse_energy_variation_n"));
       _profile_model := Some pm;
       pulse_energy := None |}
    [Logged DEBUG "Source configured"].
Proof.
  intros Hw Hkw Hkd Hkp Hdom Hpm.
  unfold Source_new, Source_init, condortools.check_input. cbv zeta.
  rewrite (filter_none (λ k, k ∉ keys kwargs)); cycle 1.
  { intros k Hk Hn. apply Hn. apply elem_of_keys.
    set_unfold in Hk. destruct Hk as [->|[->|[->|[]]]]; eauto. }
  rewrite (filter_none _ (keys kwargs)); cycle 1.
  { intros k Hk Hn. apply Hn. apply elem_of_keys, elem_of_dom in Hk.
    apply Hdom in Hk. by apply elem_of_list_to_set in Hk. }
  cbn [length]. rewrite !bool_decide_eq_false_2 by lia.
  unfold subscript. rewrite Hkw, Hkd, Hkp.
  do 3 (erewrite bind_returned by reflexivity).
  erewrite bind_returned; cycle 1.
  { unfold construct. rewrite (Photon_new_by_wavelength _ w); [reflexivity|lookup_kw|done]. }
  do 6 (erewrite bind_returned by reflexivity).
  unfold set_profile.
  destruct Hpm as [[-> ->]|(s & -> & -> & Hs)].
  - reflexivity.
  - rewrite decide_True by done. reflexivity.
Qed.



Lemma Source_new_without_pulse_energy (kwargs : gmap string pyval) :
  is_Some (kwargs !! "wavelength") → is_Some (kwargs !! "focus_diameter") →
  kwargs !! "pulse_energy" = None →
  Source_new kwargs =
  mkRun (Raised (SystemExit 1)) Source_blank
    [Logged ERROR "Cannot initialize Source instance. pulse_energy is a necessary keyword."].
Proof.
  intros Hw Hd Hp. unfold Source_new, Source_init, condortools.check_input. cbv zeta.
  rewrite filter_cons_False by (intros H; apply H; by apply elem_of_keys).
  rewrite filter_cons_False by (intros H; apply H; by apply elem_of_keys).
  rewrite filter_cons_True
    by (intros H; apply elem_of_keys in H; rewrite Hp in H; by destruct H).
  rewrite filter_nil. reflexivity.
Qed.

(** ** Source: profile and intensity *)

Lemma get_profile_uniform (s : Source) (d : R) :
  _profile_model s = Some None → focus_diameter s = Some d → d ≠ 0 →
  profile_of s (uniform_density d) [].
Proof.
  intros Hpm Hd Hnz. eexists. split.
  - unfold get_profile. erewrite bind_returned by (by apply attr_assigned).
    reflexivity.
  - intros r. cbv beta. erewrite bind_returned by (by apply attr_assigned).
    by apply py_div_nonzero, focus_area_nonzero.
Qed.

Lemma get_profile_top_hat (s : Source) (d : R) :
  _profile_model s = Some (Some "top_hat") → focus_diameter s = Some d → d ≠ 0 →
  profile_of s (top_hat_density d) [].
Proof.
  intros Hpm Hd Hnz. eexists. split.
  - unfold get_profile. erewrite bind_returned by (by apply attr_assigned).
    reflexivity.
  - intros r. cbv beta. erewrite bind_returned by (by apply attr_assigned).
    unfold top_hat_density. destruct (Rlt_dec r (d / 2)); [|done].
    by apply py_div_nonzero, focus_area_nonzero.
Qed.

Lemma get_profile_pseudo_lorentzian (s : Source) (d : R) :
  _profile_model s = Some (Some "pseudo_lorentzian") → focus_diameter s = Some d →
  profile_of s (λ r, condortools.pseudo_lorentzian_2dnorm r (d / 2))
    [Printed "lorentz: p(0)" (condortools.pseudo_lorentzian_2dnorm 0 (d / 2))].
Proof.
  intros Hpm Hd. eexists. split.
  - unfold get_profile. erewrite bind_returned by (by apply attr_assigned).
    str_decide.
    erewrite bind_returned by (by apply attr_assigned).
    reflexivity.
  - done.
Qed.

Lemma get_profile_gaussian (s : Source) (d : R) :
  _profile_model s = Some (Some "gaussian") → focus_diameter s = Some d →
  profile_of s (λ r, condortools.gaussian_2dnorm r (d / (2 * sqrt (2 * ln 2))))
    [Printed "gaussian: p(0)" (condortools.gaussian_2dnorm 0 (d / (2 * sqrt (2 * ln 2))))].
Proof.
  intros Hpm Hd. eexists. split.
  - unfold get_profile. erewrite bind_returned by (by apply attr_assigned).
    str_decide.
    erewrite bind_returned by (by apply attr_assigned).
    reflexivity.
  - done.
Qed.

Lemma get_energy_J (ph : Photon) (E : R) :
  _energy ph = Some E → get_energy "J" ph = mkRun (Returned (Some E)) ph [].
Proof.
  intros HE. unfold get_energy. str_decide.
  erewrite bind_returned by (by apply attr_assigned). done.
Qed.

Lemma get_intensity_run (s : Source) (x y z : R) (unit : string)
    (p : R → R) (t : list event) (pe : R) :
  profile_of s p t → pulse_energy s = Some pe →
  let I := p (sqrt (y ^ 2 + z ^ 2)) * pe in
  (unit = "J/m2" → get_intensity [x; y; z] unit s = mkRun (Returned (Some I)) s t) ∧
  (unit = "ph/m2" → ∀ ph E, photon s = Some ph → _energy ph = Some E → E ≠ 0 →
     get_intensity [x; y; z] unit s = mkRun (Returned (Some (I / E))) s t) ∧
  (unit = "J/um2" →
     get_intensity [x; y; z] unit s = mkRun (Returned (Some (I * 1e-12))) s t) ∧
  (unit = "mJ/um2" →
     get_intensity [x; y; z] unit s = mkRun (Returned (Some (I * 1e-9))) s t) ∧
  (unit ∉ ["J/m2"; "ph/m2"; "J/um2"; "mJ/um2"] →
     get_intensity [x; y; z] unit s =
     mkRun (Returned None) s (t ++ [Logged ERROR (unit +:+ " is not a valid unit.")])).
Proof.
  intros (f & Hf & Hp) Hpe I.
  unfold get_intensity.
  do 2 (erewrite bind_returned by reflexivity).
  erewrite bind_step by exact Hf.
  erewrite bind_returned by apply Hp.
  erewrite bind_returned by (by apply attr_assigned).
  fold I.
  repeat split.
  - intros ->. str_decide. cbn. by rewrite app_nil_r.
  - intros -> ph E Hph HE Hnz. str_decide.
    erewrite bind_attr by eassumption.
    erewrite (bind_returned (call _ _)) by (unfold call; by rewrite (get_energy_J ph E)).
    cbv beta iota. rewrite bind_py_div by done.
    cbn. by rewrite app_nil_r.
  - intros ->. str_decide. cbn. by rewrite app_nil_r.
  - intros ->. str_decide. cbn. by rewrite app_nil_r.
  - intros Hu. cbv beta iota.
    repeat (destruct (decide (unit = _)) as [->|_];
            [exfalso; apply Hu; repeat constructor|]).
    reflexivity.
Qed.

End SourceFacts.

(** ** Source: the per-shot pulse energy *)

Section NextPulseEnergy.
Context {K : constants.t} {P : condortools.profiles} {V : Variation.t}.

Lemma _next_pulse_energy_step (depth : nat) (s : Source) (v v' : Variation.state) (mean p : R) :
  _pulse_energy_variation s = Some v → pulse_energy_mean s = Some mean →
  Variation.get v mean = (p, v') →
  _next_pulse_energy (S depth) s =
  let s' := final (assign__pulse_energy_variation v' s) in
  if decide (non_random (Variation._mode v')) then
    if Rle_dec p 0 then
      mkRun (Returned ()) s'
        [Logged ERROR "Pulse energy smaller-equals zero. Change your configuration."]
    else
      mkRun (Returned ()) (final (assign_pulse_energy p s')) []
  else
    if Rle_dec p 0 then
      let r := _next_pulse_energy depth s' in
      mkRun (result r) (final r)
        (Logged WARNING "Pulse energy smaller-equals zero. Try again." :: trace r)
    else
      mkRun (Returned ()) (final (assign_pulse_energy p s')) [].
Proof.
  intros Hv Hm Hget. cbn [_next_pulse_energy].
  erewrite bind_attr by eassumption.
  erewrite bind_attr by eassumption.
  rewrite Hget.
  rewrite bind_run. cbn [assign__pulse_energy_variation result final trace].
  unfold non_random.
  destruct (decide _); destruct (Rle_dec p 0); try reflexivity.
Qed.

Lemma _next_pulse_energy_unready (depth : nat) (s : Source) :
  _pulse_energy_variation s = None ∨ pulse_energy_mean s = None →
  final (_next_pulse_energy depth s) = s ∧
  ∃ x, result (_next_pulse_energy depth s) = Raised x.
Proof.
  intros H. destruct depth as [|depth]; [by eauto|].
  cbn [_next_pulse_energy].
  destruct (_pulse_energy_variation s) as [v|] eqn:Hv.
  - destruct H as [H|H]; [done|].
    erewrite bind_attr by eassumption.
    rewrite bind_attr_unassigned by done. eauto.
  - rewrite bind_attr_unassigned by done. eauto.
Qed.

Lemma _next_pulse_energy_keeps (depth : nat) (s : Source) :
  same_configuration s (final (_next_pulse_energy depth s)).
Proof.
  revert s. induction depth as [|depth IH]; intros s.
  { by repeat split. }
  destruct (_pulse_energy_variation s) as [v|] eqn:Hv; cycle 1.
  { destruct (_next_pulse_energy_unready (S depth) s) as [-> _]; [by left|].
    by repeat split. }
  destruct (pulse_energy_mean s) as [mean|] eqn:Hm; cycle 1.
  { destruct (_next_pulse_energy_unready (S depth) s) as [-> _]; [by right|].
    by repeat split. }
  destruct (Variation.get v mean) as [p v'] eqn:Hget.
  rewrite (_next_pulse_energy_step depth s v v' mean p) by done.
  cbv zeta.
  set (s' := final (assign__pulse_energy_variation v' s)).
  assert (Hs' : same_configuration s s') by by repeat split.
  destruct Hs' as (H1 & H2 & H3 & H4).
  destruct (decide _); destruct (Rle_dec p 0) as [Hle|Hgt]; cbn [final].
  - by repeat split.
  - by repeat split.
  - destruct (IH s') as (G1 & G2 & G3 & G4). repeat split; congruence.
  - by repeat split.
Qed.

Lemma realization_shift (v v' : Variation.state) (mean p : R) (j : nat) :
  Variation.get v mean = (p, v') →
  realization v mean (S j) = realization v' mean j ∧
  mode_after v mean (S j) = mode_after v' mean j ∧
  advanced v mean (S (S j)) = advanced v' mean (S j).
Proof. intros Hget. unfold realization, mode_after. cbn [advanced]. by rewrite Hget. Qed.

Lemma _next_pulse_energy_retries (mean : R) (k : nat) :
  ∀ (depth : nat) (s : Source) (v : Variation.state),
  _pulse_energy_variation s = Some v → pulse_energy_mean s = Some mean →
  (∀ j, (j < k)%nat → realization v mean j <= 0 ∧ ¬ non_random (mode_after v mean j)) →
  0 < realization v mean k →
  (k < depth)%nat →
  result (_next_pulse_energy depth s) = Returned () ∧
  trace (_next_pulse_energy depth s) =
    replicate k (Logged WARNING "Pulse energy smaller-equals zero. Try again.") ∧
  pulse_energy (final (_next_pulse_energy depth s)) = Some (realization v mean k) ∧
  _pulse_energy_variation (final (_next_pulse_energy depth s)) = Some (advanced v mean (S k)).
Proof.
  induction k as [|k IH]; intros depth s v Hv Hm Hbad Hgood Hdepth;
    (destruct depth as [|depth]; [lia|]);
    destruct (Variation.get v mean) as [p v'] eqn:Hget;
    rewrite (_next_pulse_energy_step depth s v v' mean p) by done; cbv zeta.
  - assert (Hp : realization v mean 0 = p) by (unfold realization; cbn; by rewrite Hget).
    rewrite Hp in Hgood.
    assert (Hadv : advanced v mean 1 = v') by (cbn; by rewrite Hget).
    rewrite Hadv.
    destruct (decide _); (destruct (Rle_dec p 0); [lra|]); by rewrite Hp.
  - destruct (Hbad O) as [Hle Hrandom]; [lia|].
    assert (Hp : realization v mean 0 = p) by (unfold realization; cbn; by rewrite Hget).
    assert (Hmode : mode_after v mean 0 = Variation._mode v')
      by (unfold mode_after; cbn; by rewrite Hget).
    rewrite Hp in Hle. rewrite Hmode in Hrandom.
    rewrite decide_False by done.
    destruct (Rle_dec p 0); [|lra].
    destruct (realization_shift v v' mean p k Hget) as (Hr & _ & Ha).
    rewrite Hr, Ha. rewrite Hr in Hgood.
    edestruct (IH depth (final (assign__pulse_energy_variation v' s)) v')
      as (G1 & G2 & G3 & G4); [done|done| |done|lia|].
    { intros j Hj. destruct (Hbad (S j)) as [Hj1 Hj2]; [lia|].
      destruct (realization_shift v v' mean p j Hget) as (Hr' & Hm' & _).
      by rewrite <-Hr', <-Hm'. }
    cbn [result final trace]. rewrite G2. done.
Qed.

Lemma _next_pulse_energy_exhausts (mean : R) (depth : nat) :
  ∀ (s : Source) (v : Variation.state),
  _pulse_energy_variation s = Some v → pulse_energy_mean s = Some mean →
  (∀ j, (j < depth)%nat → realization v mean j <= 0 ∧ ¬ non_random (mode_after v mean j)) →
  result (_next_pulse_energy depth s) = Raised RecursionDepthExceeded ∧
  trace (_next_pulse_energy depth s) =
    replicate depth (Logged WARNING "Pulse energy smaller-equals zero. Try again.") ∧
  pulse_energy (final (_next_pulse_energy depth s)) = pulse_energy s.
Proof.
  induction depth as [|depth IH]; intros s v Hv Hm Hbad; [done|].
  destruct (Variation.get v mean) as [p v'] eqn:Hget.
  rewrite (_next_pulse_energy_step depth s v v' mean p) by done; cbv zeta.
  destruct (Hbad O) as [Hle Hrandom]; [lia|].
  assert (Hp : realization v mean 0 = p) by (unfold realization; cbn; by rewrite Hget).
  assert (Hmode : mode_after v mean 0 = Variation._mode v')
    by (unfold mode_after; cbn; by rewrite Hget).
  rewrite Hp in Hle. rewrite Hmode in Hrandom.
  rewrite decide_False by done.
  destruct (Rle_dec p 0); [|lra].
  edestruct (IH (final (assign__pulse_energy_variation v' s)) v') as (G1 & G2 & G3);
    [done|done| |].
  { intros j Hj. destruct (Hbad (S j)) as [Hj1 Hj2]; [lia|].
    destruct (realization_shift v v' mean p j Hget) as (Hr' & Hm' & _).
    by rewrite <-Hr', <-Hm'. }
  cbn [result final trace]. rewrite G1, G2, G3. done.
Qed.

Lemma _next_pulse_energy_non_random (depth : nat) (s : Source) (v : Variation.state) (mean : R) :
  _pulse_energy_variation s = Some v → pulse_energy_mean s = Some mean →
  non_random (mode_after v mean 0) →
  let r := _next_pulse_energy (S depth) s in
  result r = Returned () ∧
  _pulse_energy_variation (final r) = Some (advanced v mean 1) ∧
  (realization v mean 0 <= 0 →
     trace r = [Logged ERROR "Pulse energy smaller-equals zero. Change your configuration."] ∧
     pulse_energy (final r) = pulse_energy s) ∧
  (0 < realization v mean 0 →
     trace r = [] ∧ pulse_energy (final r) = Some (realization v mean 0)).
Proof.
  intros Hv Hm Hmode r. subst r.
  destruct (Variation.get v mean) as [p v'] eqn:Hget.
  rewrite (_next_pulse_energy_step depth s v v' mean p) by done; cbv zeta.
  assert (Hp : realization v mean 0 = p) by (unfold realization; cbn; by rewrite Hget).
  assert (Hmode' : mode_after v mean 0 = Variation._mode v')
    by (unfold mode_after; cbn; by rewrite Hget).
  assert (Hadv : advanced v mean 1 = v') by (cbn; by rewrite Hget).
  rewrite Hp, Hadv. rewrite Hmode' in Hmode.
  rewrite decide_True by done.
  destruct (Rle_dec p 0); cbn [result final trace]; repeat split; try done; lra.
Qed.

End NextPulseEnergy.

Section PulseEnergyClaim.
Context {K : constants.t} {P : condortools.profiles} {V : Variation.t}.

(** C1, as the code has it.  In the deterministic modes (mode None or
    "range") a realization ≤ 0 is logged once at error level and not
    retried, but it is not fatal: the call returns normally and leaves the
    stored pulse energy as it was.  In the random modes every realization
    ≤ 0 logs one warning and is retried; when the first positive
    realization is number k and the interpreter still allows more than k
    nested calls, the call returns with exactly k warnings and stores that
    realization.  In the deterministic modes a positive realization is
    stored without any log record. *)
Theorem next_pulse_energy_by_mode (s : Source) (v : Variation.state) (mean : R)
    (depth k : nat) :
  _pulse_energy_variation s = Some v → pulse_energy_mean s = Some mean →
  (non_random (mode_after v mean 0) → realization v mean 0 <= 0 →
     let r := _next_pulse_energy (S depth) s in
     result r = Returned () ∧
     trace r = [Logged ERROR "Pulse energy smaller-equals zero. Change your configuration."] ∧
     pulse_energy (final r) = pulse_energy s) ∧
  ((∀ j, (j < k)%nat → realization v mean j <= 0 ∧ ¬ non_random (mode_after v mean j)) →
   0 < realization v mean k → (k < depth)%nat →
     let r := _next_pulse_energy depth s in
     result r = Returned () ∧
     trace r = replicate k (Logged WARNING "Pulse energy smaller-equals zero. Try again.") ∧
     pulse_energy (final r) = Some (realization v mean k)) ∧
  (non_random (mode_after v mean 0) → 0 < realization v mean 0 →
     let r := _next_pulse_energy (S depth) s in
     result r = Returned () ∧ trace r = [] ∧
     pulse_energy (final r) = Some (realization v mean 0)).
Proof.
  intros Hv Hm. split; [|split].
  - intros Hmode Hle r.
    destruct (_next_pulse_energy_non_random depth s v mean Hv Hm Hmode)
      as (H1 & _ & H2 & _).
    destruct (H2 Hle) as [H3 H4]. done.
  - intros Hbad Hgood Hdepth r.
    destruct (_next_pulse_energy_retries mean k depth s v Hv Hm Hbad Hgood Hdepth)
      as (H1 & H2 & H3 & _). done.
  - intros Hmode Hpos r.
    destruct (_next_pulse_energy_non_random depth s v mean Hv Hm Hmode)
      as (H1 & _ & _ & H2).
    destruct (H2 Hpos) as [H3 H4]. done.
Qed.

End PulseEnergyClaim.

(** ** Source: construction keywords, intensity units and the top hat *)

Ltac not_unknown :=
  try intros ?;
  exfalso; match goal with H : _ ∉ _ |- _ => apply H; repeat constructor end.

Section SourceClaims.
Context {K : constants.t} {P : condortools.profiles} {V : Variation.t}.

(** C3.  The keywords wavelength, focus_diameter and pulse_energy_mean,
    which the claim says are accepted, stop the construction: the code
    still requires the legacy keyword pulse_energy, logs that it is
    missing and exits with status 1 before anything is assigned. *)
Theorem Source_init_rejects_pulse_energy_mean :
  Source_new mean_kwargs =
  mkRun (Raised (SystemExit 1)) Source_blank
    [Logged ERROR "Cannot initialize Source instance. pulse_energy is a necessary keyword."].
Proof.
  apply Source_new_without_pulse_energy; unfold mean_kwargs.
  - eexists. lookup_kw.
  - eexists. lookup_kw.
  - lookup_kw.
Qed.

(** C6, as the code has it.  For a position [x, y, z] and a realized pulse
    energy, get_intensity takes r = √(y²+z²) and the profile density at r
    times the pulse energy, returned unchanged for "J/m2", divided by the
    photon energy in Joules for "ph/m2", multiplied by 1e-12 for "J/um2"
    and by 1e-9 for "mJ/um2".  For any other unit string it does not fail:
    it logs an error record naming the unit and returns None.  The source
    object is left as it was. *)
Theorem get_intensity_by_unit (s : Source) (x y z : R) (unit : string)
    (p : R → R) (t : list event) (pe E : R) (ph : Photon) :
  profile_of s p t → pulse_energy s = Some pe →
  photon s = Some ph → _energy ph = Some E → E ≠ 0 →
  let I := p (sqrt (y ^ 2 + z ^ 2)) * pe in
  let r := get_intensity [x; y; z] unit s in
  final r = s ∧
  (unit = "J/m2" → result r = Returned (Some I)) ∧
  (unit = "ph/m2" → result r = Returned (Some (I / E))) ∧
  (unit = "J/um2" → result r = Returned (Some (I * 1e-12))) ∧
  (unit = "mJ/um2" → result r = Returned (Some (I * 1e-9))) ∧
  (unit ∉ ["J/m2"; "ph/m2"; "J/um2"; "mJ/um2"] →
     result r = Returned None ∧
     trace r = t ++ [Logged ERROR (unit +:+ " is not a valid unit.")]).
Proof.
  intros Hprof Hpe Hph HE Hnz I r.
  destruct (get_intensity_run s x y z unit p t pe Hprof Hpe) as (H1 & H2 & H3 & H4 & H5).
  fold I in H1, H2, H3, H4. subst r.
  destruct (decide (unit = "J/m2")) as [Hu1|Hu1].
  { rewrite (H1 Hu1). subst unit. repeat split; try done; not_unknown. }
  destruct (decide (unit = "ph/m2")) as [Hu2|Hu2].
  { rewrite (H2 Hu2 ph E Hph HE Hnz). subst unit.
    repeat split; try done; not_unknown. }
  destruct (decide (unit = "J/um2")) as [Hu3|Hu3].
  { rewrite (H3 Hu3). subst unit. repeat split; try done; not_unknown. }
  destruct (decide (unit = "mJ/um2")) as [Hu4|Hu4].
  { rewrite (H4 Hu4). subst unit. repeat split; try done; not_unknown. }
  rewrite H5.
  - repeat split; done.
  - intros Hin. repeat (apply elem_of_cons in Hin as [Hin|Hin]; [done|]).
    by apply elem_of_nil in Hin.
Qed.

Lemma top_hat_density_inside (d r : R) :
  r < d / 2 → top_hat_density d r = 1 / (PI * (d / 2) ^ 2).
Proof. intros Hr. unfold top_hat_density. destruct (Rlt_dec r (d / 2)); [done|lra]. Qed.

Lemma top_hat_density_outside (d r : R) : d / 2 <= r → top_hat_density d r = 0.
Proof. intros Hr. unfold top_hat_density. destruct (Rlt_dec r (d / 2)); [lra|done]. Qed.

Lemma diagonal_outside (d : R) : 0 < d → d / 2 <= sqrt (d ^ 2 + d ^ 2).
Proof.
  intros Hd. apply Rle_trans with d; [lra|].
  rewrite <- (sqrt_pow2 d) at 1 by lra.
  apply sqrt_le_1_alt. nra.
Qed.

(** The value of [get_intensity] in each of the four units it knows. *)
Lemma get_intensity_in_unit (s : Source) (x y z : R) (unit : string)
    (p : R → R) (t : list event) (pe E : R) (ph : Photon) :
  profile_of s p t → pulse_energy s = Some pe →
  photon s = Some ph → _energy ph = Some E → E ≠ 0 →
  unit ∈ ["J/m2"; "ph/m2"; "J/um2"; "mJ/um2"] →
  result (get_intensity [x; y; z] unit s) =
  Returned (Some (let I := p (sqrt (y ^ 2 + z ^ 2)) * pe in
                  if decide (unit = "J/m2") then I
                  else if decide (unit = "ph/m2") then I / E
                  else if decide (unit = "J/um2") then I * 1e-12
                  else I * 1e-9)).
Proof.
  intros Hprof Hpe Hph HE Hnz Hunit.
  destruct (get_intensity_run s x y z unit p t pe Hprof Hpe) as (A1 & A2 & A3 & A4 & _).
  cbv zeta in *.
  repeat (apply elem_of_cons in Hunit as [Hunit|Hunit]).
  - rewrite (A1 Hunit). subst unit. by str_decide.
  - rewrite (A2 Hunit ph E Hph HE Hnz). subst unit. by str_decide.
  - rewrite (A3 Hunit). subst unit. by str_decide.
  - rewrite (A4 Hunit). subst unit. by str_decide.
  - by apply elem_of_nil in Hunit.
Qed.

(** C7.  With the top-hat profile, a positive focus diameter d and a
    positive pulse energy, the density that get_profile returns is
    1/(π·(d/2)²) for r < d/2 and 0 from r = d/2 on.  In every unit that
    get_intensity knows (the default ph/m2 among them) the intensity at a
    position with √(y²+z²) < d/2 is that density times the pulse energy,
    converted to the unit, which is not zero; at a position with
    √(y²+z²) ≥ d/2 it is zero.  So the intensity at [0,0,0] is nonzero and
    the intensity at [0,d,d] is zero. *)
Theorem top_hat_intensity (s : Source) (d pe E : R) (ph : Photon) (unit : string) :
  _profile_model s = Some (Some "top_hat") → focus_diameter s = Some d → 0 < d →
  pulse_energy s = Some pe → 0 < pe →
  photon s = Some ph → _energy ph = Some E → E ≠ 0 →
  unit ∈ ["J/m2"; "ph/m2"; "J/um2"; "mJ/um2"] →
  let in_unit := λ I : R,
    if decide (unit = "J/m2") then I
    else if decide (unit = "ph/m2") then I / E
    else if decide (unit = "J/um2") then I * 1e-12
    else I * 1e-9 in
  let I0 := 1 / (PI * (d / 2) ^ 2) * pe in
  (∃ p, profile_of s p [] ∧
        (∀ r, r < d / 2 → p r = 1 / (PI * (d / 2) ^ 2)) ∧
        (∀ r, d / 2 <= r → p r = 0)) ∧
  (∀ x y z, sqrt (y ^ 2 + z ^ 2) < d / 2 →
     result (get_intensity [x; y; z] unit s) = Returned (Some (in_unit I0))) ∧
  (∀ x y z, d / 2 <= sqrt (y ^ 2 + z ^ 2) →
     result (get_intensity [x; y; z] unit s) = Returned (Some 0)) ∧
  in_unit I0 ≠ 0 ∧
  result (get_intensity [0; 0; 0] unit s) = Returned (Some (in_unit I0)) ∧
  result (get_intensity [0; d; d] unit s) = Returned (Some 0).
Proof.
  intros Hpm Hd Hdpos Hpe Hpepos Hph HE Hnz Hunit in_unit I0.
  assert (Hprof : profile_of s (top_hat_density d) [])
    by (apply get_profile_top_hat; [done|done|lra]).
  assert (Harea : 0 < PI * (d / 2) ^ 2).
  { apply Rmult_lt_0_compat; [apply PI_RGT_0|]. apply pow_lt. lra. }
  assert (HI0 : I0 ≠ 0).
  { unfold I0. apply Rmult_integral_contrapositive_currified; [|lra].
    apply Rgt_not_eq. apply Rdiv_lt_0_compat; lra. }
  assert (Hin : ∀ x y z, sqrt (y ^ 2 + z ^ 2) < d / 2 →
     result (get_intensity [x; y; z] unit s) = Returned (Some (in_unit I0))).
  { intros x y z Hr.
    rewrite (get_intensity_in_unit s x y z unit _ _ pe E ph Hprof Hpe Hph HE Hnz Hunit).
    cbv zeta. by rewrite top_hat_density_inside. }
  assert (Hout : ∀ x y z, d / 2 <= sqrt (y ^ 2 + z ^ 2) →
     result (get_intensity [x; y; z] unit s) = Returned (Some 0)).
  { intros x y z Hr.
    rewrite (get_intensity_in_unit s x y z unit _ _ pe E ph Hprof Hpe Hph HE Hnz Hunit).
    cbv zeta. rewrite top_hat_density_outside by done.
    do 2 f_equal. repeat destruct (decide _); unfold Rdiv; ring. }
  split.
  { exists (top_hat_density d). split; [done|]. split.
    - intros r Hr. by apply top_hat_density_inside.
    - intros r Hr. by apply top_hat_density_outside. }
  split; [exact Hin|]. split; [exact Hout|]. split.
  { unfold in_unit. repeat destruct (decide _).
    - done.
    - unfold Rdiv. apply Rmult_integral_contrapositive_currified; [done|].
      by apply Rinv_neq_0_compat.
    - apply Rmult_integral_contrapositive_currified; [done|lra].
    - apply Rmult_integral_contrapositive_currified; [done|lra]. }
  split.
  - apply Hin. replace (0 ^ 2 + 0 ^ 2) with 0 by ring. rewrite sqrt_0. lra.
  - apply Hout. by apply diagonal_outside.
Qed.

Lemma first_shot_deterministic (d : nat) (s : Source) (v : Variation.state) (mean : R) :
  _pulse_energy_variation s = Some v → pulse_energy_mean s = Some mean →
  non_random (mode_after v mean 0) → 0 < realization v mean 0 →
  pulse_energy (final (_next_pulse_energy (S d) s)) = Some (realization v mean 0) ∧
  same_configuration s (final (_next_pulse_energy (S d) s)).
Proof.
  intros Hv Hm Hmode Hpos.
  destruct (_next_pulse_energy_non_random d s v mean Hv Hm Hmode) as (_ & _ & _ & H).
  destruct (H Hpos) as [_ Hpe]. split; [done|]. apply _next_pulse_energy_keeps.
Qed.

End SourceClaims.


(** ** Propagator: arrays and indices *)

Lemma zero_non_finite_entry (z : complex) :
  numpy.isfinite (if numpy.isfinite z then z else numpy.zero) = true.
Proof. destruct (numpy.isfinite z) eqn:E; [done|reflexivity]. Qed.

Lemma zero_non_finite_idemp (A : array) : zero_non_finite (zero_non_finite A) = zero_non_finite A.
Proof.
  unfold zero_non_finite. rewrite map_map. apply map_ext. intros row.
  rewrite map_map. apply map_ext. intros z. by rewrite zero_non_finite_entry.
Qed.

Lemma position_of_bound {A} (l : list A) (i : Z) (j : nat) :
  position_of l i = Some j → (j < length l)%nat.
Proof.
  unfold position_of. case_bool_decide; case_bool_decide; intros [= <-]; lia.
Qed.

Lemma alter_twice {A} (f : A → A) (j : nat) (l : list A) :
  (∀ x, f (f x) = f x) → alter f j (alter f j l) = alter f j l.
Proof.
  intros Hf. apply list_eq. intros k.
  destruct (decide (j = k)) as [->|Hne].
  - rewrite !list_lookup_alter_eq. destruct (l !! k); [|done]. cbn. by rewrite Hf.
  - by rewrite !list_lookup_alter_ne.
Qed.

Lemma alter_fixed {A} (f : A → A) (j : nat) (l : list A) (x : A) :
  l !! j = Some x → f x = x → alter f j l = l.
Proof.
  intros Hx Hf. apply list_eq. intros k.
  destruct (decide (j = k)) as [->|Hne].
  - rewrite list_lookup_alter_eq, Hx. cbn. by rewrite Hf.
  - by rewrite list_lookup_alter_ne.
Qed.

Lemma locate_found {S A} (l : list A) (i : Z) (j : nat) (s : S) :
  position_of l i = Some j → locate l i s = mkRun (Returned j) s [].
Proof. intros H. unfold locate. by rewrite H. Qed.

Lemma index_found {S A} (l : list A) (i : Z) (j : nat) (x : A) (s : S) :
  position_of l i = Some j → l !! j = Some x → index l i s = mkRun (Returned x) s [].
Proof.
  intros Hp Hx. unfold index. erewrite bind_returned by by apply locate_found.
  by rewrite Hx.
Qed.

Lemma position_of_same_length {A} (l l' : list A) (i : Z) :
  length l = length l' → position_of l i = position_of l' i.
Proof. intros H. unfold position_of. by rewrite H. Qed.

(** ** Propagator: Input and Output *)

Section PropagatorFacts.
Context {C : propagator.classes} {Meth : methods} {F : numpy.fft}.

Lemma on_input_unassigned {A B} (m : M Input A) (k : A → M Output B) (o : Output) :
  input_object o = None →
  (on_input m ≫= k) o = mkRun (Raised (AttributeError "input_object")) o [].
Proof.
  intros H. apply bind_raised. unfold on_input. by rewrite H.
Qed.

(** C10.  Constructing an Output from an argument that is not an Input
    does not raise: it logs one error record and returns an object on which
    neither input_object nor amplitudes is assigned, so each of the four
    accessors then fails with a missing-attribute error. *)
Theorem Output_of_non_Input (v : pyval) (i : Z) :
  let o := Output_new (Other v) in
  result o = Returned () ∧
  trace o = [Logged ERROR "Illegal input. Argument has to be of instance Input."] ∧
  input_object (final o) = None ∧
  amplitudes (final o) = None ∧
  result (get_intensity_pattern i (final o)) = Raised (AttributeError "input_object") ∧
  result (get_real_space_image i (final o)) = Raised (AttributeError "amplitudes") ∧
  result (get_linear_sampling_ratio (final o)) = Raised (AttributeError "input_object") ∧
  result (get_full_period_edge_resolution (final o)) = Raised (AttributeError "input_object").
Proof.
  cbv zeta. repeat split.
Qed.

Lemma bind_emit {S B} (ev : event) (k : () → M S B) (s : S) :
  (emit ev ≫= k) s = mkRun (result (k () s)) (final (k () s)) (ev :: trace (k () s)).
Proof. reflexivity. Qed.

(** [_reconfigure] up to the point where the sample section is read, for
    collaborators that may log and may change the Input they are given as
    parent. *)
Lemma _reconfigure_upto_sample (conf : propagator.configuration_arg)
    (dflt : string) (cfg : propagator.Configuration) (det : propagator.Detector)
    (src : propagator.Source) (kd ks : gmap string pyval)
    (s s1 s2 s3 : Input) (t1 t2 t3 : list event) :
  default_configuration s = Some dflt →
  new_Configuration conf dflt s = mkRun (Returned cfg) s1 t1 →
  confDict cfg !! "detector" = Some kd →
  new_Detector kd (final (assign_configuration cfg s1)) = mkRun (Returned det) s2 t2 →
  confDict cfg !! "source" = Some ks →
  new_Source ks (final (assign_detector det s2)) = mkRun (Returned src) s3 t3 →
  _reconfigure conf s =
  let r := (kw ← section_of (confDict cfg) "sample";
            ty ← subscript kw "sample_type";
            if is_str ty "uniform_sphere" then
              smp ← new_SampleSphere kw; assign_sample smp
            else if is_str ty "uniform_spheroid" then
              smp ← new_SampleSpheroid kw; assign_sample smp
            else if is_str ty "map3d" then
              smp ← new_SampleMap kw; assign_sample smp
            else
              emit (Logged ERROR "%s is not a valid sample type.");;
              ret ())
           (final (assign_source src s3)) in
  mkRun (result r) (final r) (t1 ++ t2 ++ t3 ++ trace r).
Proof.
  intros Hs Hcfg Hkd Hdet Hks Hsrc. unfold _reconfigure.
  erewrite bind_attr by eassumption.
  erewrite bind_step by exact Hcfg.
  rewrite (bind_returned (assign_configuration cfg) _ s1
             (final (assign_configuration cfg s1)) ()) by reflexivity.
  cbv zeta. unfold section_of. rewrite Hkd, Hks, bind_ret.
  erewrite bind_step by exact Hdet.
  rewrite (bind_returned (assign_detector det) _ s2
             (final (assign_detector det s2)) ()) by reflexivity.
  rewrite bind_ret.
  erewrite bind_step by exact Hsrc.
  rewrite (bind_returned (assign_source src) _ s3
             (final (assign_source src s3)) ()) by reflexivity.
  reflexivity.
Qed.

(** C8, as the code has it.  When the configuration resolves, the detector
    and the source are built, and the sample type is none of uniform_sphere,
    uniform_spheroid and map3d, Input construction does not raise: after
    whatever the three constructors logged it logs one error record, whose
    text is the format string itself, and returns.  The Input it returns
    has its source and both changed-flags assigned, and its sample is what
    the constructors left on it: Input's own code assigns no sample, so the
    sample is unassigned unless a collaborator assigned it. *)
Theorem Input_unknown_sample_type (conf : propagator.configuration_arg)
    (cfg : propagator.Configuration) (det : propagator.Detector)
    (src : propagator.Source) (kd ks kw : gmap string pyval) (ty : pyval)
    (s1 s2 s3 : Input) (t1 t2 t3 : list event) :
  new_Configuration conf (this_dir +:+ "/data/default.conf")
    (final (assign_default_configuration (this_dir +:+ "/data/default.conf") Input_blank))
    = mkRun (Returned cfg) s1 t1 →
  confDict cfg !! "detector" = Some kd →
  new_Detector kd (final (assign_configuration cfg s1)) = mkRun (Returned det) s2 t2 →
  confDict cfg !! "source" = Some ks →
  new_Source ks (final (assign_detector det s2)) = mkRun (Returned src) s3 t3 →
  confDict cfg !! "sample" = Some kw → kw !! "sample_type" = Some ty →
  is_str ty "uniform_sphere" = false → is_str ty "uniform_spheroid" = false →
  is_str ty "map3d" = false →
  let r := Input_new conf in
  result r = Returned () ∧
  trace r = t1 ++ t2 ++ t3 ++ [Logged ERROR "%s is not a valid sample type."] ∧
  final r = {| default_configuration := default_configuration s3;
               configuration := configuration s3;
               detector := detector s3; source := Some src; sample := sample s3;
               _photon_changed := Some false; _detector_changed := Some false |} ∧
  sample (final r) = sample s3.
Proof.
  intros Hcfg Hkd Hdet Hks Hsrc Hkw Hty H1 H2 H3 r. subst r.
  unfold Input_new, Input_init.
  rewrite (bind_returned (assign_default_configuration (this_dir +:+ "/data/default.conf"))
             _ Input_blank
             (final (assign_default_configuration (this_dir +:+ "/data/default.conf")
                       Input_blank)) ()) by reflexivity.
  rewrite bind_run.
  rewrite (_reconfigure_upto_sample conf (this_dir +:+ "/data/default.conf")
             cfg det src kd ks
             (final (assign_default_configuration (this_dir +:+ "/data/default.conf")
                       Input_blank))
             s1 s2 s3 t1 t2 t3 eq_refl Hcfg Hkd Hdet Hks Hsrc).
  unfold section_of. rewrite Hkw, bind_ret.
  unfold subscript. rewrite Hty, bind_ret.
  rewrite H1, H2, H3.
  cbn. rewrite app_nil_r. repeat split.
Qed.

Lemma get_real_space_image_run (o : Output) (a : list array) (i : Z) (j : nat) (A : array) :
  amplitudes o = Some a → position_of a i = Some j → a !! j = Some A →
  get_real_space_image i o =
  mkRun (Returned (numpy.fftshift (numpy.ifftn (numpy.fftshift (zero_non_finite A)))))
        (final (assign_amplitudes (alter zero_non_finite j a) o)) [].
Proof.
  intros Ha Hp HA. unfold get_real_space_image.
  erewrite bind_attr by eassumption.
  erewrite bind_returned by by apply locate_found.
  erewrite bind_returned by reflexivity.
  erewrite bind_attr by reflexivity.
  erewrite bind_returned; [reflexivity|].
  apply index_found with j.
  - rewrite <- Hp. apply position_of_same_length. by rewrite length_alter.
  - by rewrite list_lookup_alter_eq, HA.
Qed.

Lemma keeps_bind {A B} (m : M Output A) (k : A → M Output B) :
  keeps_amplitudes m → (∀ a, keeps_amplitudes (k a)) → keeps_amplitudes (m ≫= k).
Proof.
  intros Hm Hk o. rewrite bind_run. specialize (Hm o).
  destruct (result (m o)) as [a|x]; cbn [final]; [|done].
  by rewrite Hk.
Qed.

Lemma keeps_on_input {A} (m : M Input A) : keeps_amplitudes (on_input m).
Proof. intros o. unfold on_input. by destruct (input_object o). Qed.

Lemma keeps_attr {A} (field : Output → option A) (name : string) :
  keeps_amplitudes (attr field name).
Proof. intros o. unfold attr. rewrite bind_run. cbn. by destruct (field o). Qed.

Lemma keeps_ret {A} (a : A) : keeps_amplitudes (ret a).
Proof. done. Qed.

Lemma keeps_raise {A} (x : exn) : keeps_amplitudes (raise (A := A) x).
Proof. done. Qed.

Lemma keeps_index {A} (l : list A) (i : Z) : keeps_amplitudes (index l i).
Proof.
  intros o. unfold index, locate. destruct (position_of l i) as [j|]; [|done].
  rewrite bind_ret. by destruct (l !! j).
Qed.

Lemma keeps_py_div (a b : R) : keeps_amplitudes (py_div a b).
Proof. intros o. unfold py_div. by destruct (Req_dec_T b 0). Qed.

Lemma get_intensity_pattern_keeps (i : Z) : keeps_amplitudes (get_intensity_pattern i).
Proof.
  unfold get_intensity_pattern.
  apply keeps_bind; [apply keeps_on_input|intros det].
  apply keeps_bind; [apply keeps_attr|intros a].
  apply keeps_bind; [apply keeps_index|intros A].
  apply keeps_on_input.
Qed.

Lemma get_linear_sampling_ratio_keeps : keeps_amplitudes get_linear_sampling_ratio.
Proof.
  unfold get_linear_sampling_ratio.
  apply keeps_bind; [apply keeps_on_input|intros smp].
  destruct (radius smp); [|apply keeps_ret].
  apply keeps_bind; [apply keeps_on_input|intros det].
  apply keeps_bind; [apply keeps_on_input|intros src].
  apply keeps_bind; [apply keeps_on_input|intros w].
  apply keeps_bind; [apply keeps_on_input|intros smp'].
  destruct (radius smp'); [|apply keeps_raise].
  apply keeps_bind; [apply keeps_on_input|intros det'].
  apply keeps_bind; [apply keeps_py_div|intros q]. apply keeps_ret.
Qed.

Lemma get_full_period_edge_resolution_keeps : keeps_amplitudes get_full_period_edge_resolution.
Proof.
  unfold get_full_period_edge_resolution.
  apply keeps_bind; [apply keeps_on_input|intros src].
  apply keeps_bind; [apply keeps_on_input|intros w].
  apply keeps_bind; [apply keeps_on_input|intros det].
  apply keeps_bind; [apply keeps_on_input|intros det'].
  apply keeps_ret.
Qed.

Lemma assign_amplitudes_same (o : Output) (a : list array) :
  amplitudes o = Some a → final (assign_amplitudes a o) = o.
Proof. intros H. destruct o. cbn in *. by rewrite H. Qed.

(** C2, as the code has it.  get_real_space_image(i) returns the
    shift-centered inverse transform of image i with its non-finite entries
    replaced by zero, and it makes that replacement in the stored
    amplitudes themselves; it logs nothing, and every other attribute of
    the object (the input object, the three Euler angles and the sample
    diameter) is what it was.  It is idempotent: a second call returns the
    same image and leaves the object as the first call left it.
    get_intensity_pattern never changes the stored amplitudes.  When
    image i has no non-finite entry the object is unchanged by
    get_real_space_image, and so is the result of a subsequent
    get_intensity_pattern(i). *)
Theorem get_real_space_image_sanitizes_in_place (o : Output) (a : list array)
    (i : Z) (j : nat) (A : array) :
  amplitudes o = Some a → position_of a i = Some j → a !! j = Some A →
  let r := get_real_space_image i o in
  result r = Returned (numpy.fftshift (numpy.ifftn (numpy.fftshift (zero_non_finite A)))) ∧
  trace r = [] ∧
  final r = {| input_object := input_object o;
               amplitudes := Some (<[j := zero_non_finite A]> a);
               sample_euler_angle_0 := sample_euler_angle_0 o;
               sample_euler_angle_1 := sample_euler_angle_1 o;
               sample_euler_angle_2 := sample_euler_angle_2 o;
               sample_diameter := sample_diameter o |} ∧
  get_real_space_image i (final r) = r ∧
  amplitudes (final (get_intensity_pattern i o)) = Some a ∧
  (zero_non_finite A = A →
     final r = o ∧ get_intensity_pattern i (final r) = get_intensity_pattern i o).
Proof.
  intros Ha Hp HA r. subst r.
  rewrite (get_real_space_image_run o a i j A) by done.
  cbn [result final trace].
  assert (Halt : alter zero_non_finite j a = <[j := zero_non_finite A]> a).
  { apply list_eq. intros k. destruct (decide (j = k)) as [->|Hne].
    - rewrite list_lookup_alter_eq, HA. cbn.
      by rewrite list_lookup_insert_eq by (by apply position_of_bound in Hp).
    - by rewrite list_lookup_alter_ne, list_lookup_insert_ne. }
  split; [done|]. split; [done|].
  split; [cbn [assign_amplitudes final]; by rewrite Halt|]. split.
  - rewrite (get_real_space_image_run _ (alter zero_non_finite j a) i j (zero_non_finite A)).
    + rewrite zero_non_finite_idemp. f_equal.
      cbn. rewrite alter_twice by apply zero_non_finite_idemp. done.
    + done.
    + rewrite <- Hp. apply position_of_same_length. by rewrite length_alter.
    + by rewrite list_lookup_alter_eq, HA.
  - split; [by rewrite get_intensity_pattern_keeps|].
    intros Hfix.
    rewrite (alter_fixed zero_non_finite j a A) by done.
    by rewrite assign_amplitudes_same.
Qed.

End PropagatorFacts.

Lemma Photon_wavelength_round_trip_witness :
  let ph := @Photon_new CODATA2010 {[ "wavelength" := VFloat 1e-10 ]} in
  result ph = Returned () ∧
  _energy (final ph) = Some (299792458 * 6.62606957e-34 / 1e-10) ∧
  result (@get_wavelength CODATA2010 (final ph)) = Returned 1e-10.
Proof.
  apply (@Photon_wavelength_round_trip CODATA2010 1e-10); codata.
Defined.

(** C5 fails on the code in each of its three parts: two keywords at once
    are accepted (the energy in Joules wins over the one in eV), no keyword
    at all returns normally with nothing but a log record, and a single
    keyword carrying a negative energy is stored as it is. *)
Lemma Photon_init_counts_no_keywords :
  (let ph := @Photon_new CODATA2010 {[ "energy" := VFloat 1; "energy_eV" := VFloat 2 ]} in
   result ph = Returned () ∧ _energy (final ph) = Some 1 ∧ trace ph = []) ∧
  (let ph := @Photon_new CODATA2010 ∅ in
   result ph = Returned () ∧ _energy (final ph) = None) ∧
  (let ph := @Photon_new CODATA2010 {[ "energy" := VFloat (-1) ]} in
   result ph = Returned () ∧ ∃ E, _energy (final ph) = Some E ∧ ¬ 0 < E).
Proof.
  split; [|split].
  - rewrite (Photon_new_by_energy _ 1) by lookup_kw. done.
  - rewrite Photon_new_without_keyword by lookup_kw. done.
  - rewrite (Photon_new_by_energy _ (-1)) by lookup_kw.
    split; [done|]. exists (-1). split; [done|lra].
Qed.

Lemma Photon_init_first_keyword_wins_witness :
  let kwarg : gmap string pyval := {[ "wavelength" := VFloat 1e-10; "energy" := VFloat 2 ]} in
  result (@Photon_new CODATA2010 kwarg) = Returned () ∧
  _energy (final (@Photon_new CODATA2010 kwarg)) = Some (299792458 * 6.62606957e-34 / 1e-10) ∧
  (0 < 299792458 * 6.62606957e-34 / 1e-10 ↔ 0 < 1e-10).
Proof.
  intros kwarg.
  apply (@Photon_init_first_keyword_wins CODATA2010 kwarg 1e-10); try codata.
  subst kwarg. lookup_kw.
Defined.

(** ** The integral of the pulse profiles *)

Lemma antiderivative_of_lim (f F : R → R) (a b : R) :
  a <= b → (∀ x, a <= x <= b → derivable_pt_lim F x (f x)) → antiderivative f F a b.
Proof.
  intros Hab HF. split; [|done]. intros x Hx.
  exists (exist _ (f x) (HF x Hx)). reflexivity.
Qed.

Lemma RiemannInt_antiderivative (f F : R → R) (a b : R) (pr : Riemann_integrable f a b) :
  a <= b → (∀ x, a <= x <= b → continuity_pt f x) →
  (∀ x, a <= x <= b → derivable_pt_lim F x (f x)) →
  RiemannInt pr = F b - F a.
Proof.
  intros Hab Hc HF.
  rewrite (RiemannInt_P20 Hab (FTC_P1 Hab Hc) pr).
  destruct (antiderivative_Ucte f _ F a b (RiemannInt_P29 Hab Hc)
              (antiderivative_of_lim f F a b Hab HF)) as [c Hcst].
  rewrite (Hcst b), (Hcst a) by lra. ring.
Qed.

Lemma disc_integral_by_antiderivative (p F : R → R) (rho : R) :
  0 <= rho →
  (∀ x, 0 <= x <= rho → continuity_pt (ring p) x) →
  (∀ x, 0 <= x <= rho → derivable_pt_lim F x (ring p x)) →
  integrates_over_disc p rho (F rho - F 0).
Proof.
  intros Hrho Hc HF.
  exists (continuity_implies_RiemannInt Hrho Hc).
  by apply RiemannInt_antiderivative.
Qed.

Lemma integrates_over_disc_unique (p : R → R) (rho v w : R) :
  integrates_over_disc p rho v → integrates_over_disc p rho w → v = w.
Proof. intros [pr1 <-] [pr2 <-]. apply RiemannInt_P5. Qed.

(** quadratic antiderivative *)
Lemma derivable_pt_lim_square (k x : R) :
  derivable_pt_lim (λ r, k * r ^ 2) x (2 * k * x).
Proof.
  apply derivable_pt_lim_ext with (mult_real_fct k (λ y, y ^ 2)); [done|].
  replace (2 * k * x) with (k * (INR 2 * x ^ pred 2)) by (cbn; ring).
  apply derivable_pt_lim_scal, derivable_pt_lim_pow.
Qed.

Lemma derivable_pt_lim_linear (k x : R) : derivable_pt_lim (λ r, k * r) x k.
Proof.
  apply derivable_pt_lim_ext with (mult_real_fct k id); [done|].
  replace k with (k * 1) at 2 by ring.
  apply derivable_pt_lim_scal, derivable_pt_lim_id.
Qed.

Lemma ring_uniform_continuous (d x : R) : continuity_pt (ring (uniform_density d)) x.
Proof.
  apply derivable_continuous_pt.
  exists (2 * PI * uniform_density d 0).
  apply derivable_pt_lim_ext with (λ r, (2 * PI * uniform_density d 0) * r).
  { intros z. unfold ring, uniform_density. ring. }
  apply derivable_pt_lim_linear.
Qed.

Lemma uniform_disc_mass (d rho : R) :
  0 < d → 0 <= rho →
  integrates_over_disc (uniform_density d) rho ((rho / (d / 2)) ^ 2).
Proof.
  intros Hd Hrho.
  replace ((rho / (d / 2)) ^ 2)
    with ((λ r, (PI * uniform_density d 0) * r ^ 2) rho - (λ r, (PI * uniform_density d 0) * r ^ 2) 0).
  - apply (disc_integral_by_antiderivative _ (λ r, (PI * uniform_density d 0) * r ^ 2));
      [done|intros; apply ring_uniform_continuous|].
    intros x _.
    replace (ring (uniform_density d) x) with (2 * (PI * uniform_density d 0) * x)
      by (unfold ring, uniform_density; ring).
    apply derivable_pt_lim_square.
  - cbv beta. unfold uniform_density. field. split; [lra|apply PI_neq0].
Qed.

Lemma uniform_plane_diverges (d : R) : 0 < d → ¬ integrates_over_plane (uniform_density d) 1.
Proof.
  intros Hd (mass & Hmass & Hlim).
  destruct (Hlim 1 Rlt_0_1) as [rho0 Hrho0].
  set (rho := Rmax rho0 d).
  assert (Hge : d <= rho) by apply Rmax_r.
  assert (H0 : 0 <= rho) by lra.
  specialize (Hrho0 rho (Rmax_l _ _) H0).
  rewrite (integrates_over_disc_unique _ _ _ _ (Hmass rho H0) (uniform_disc_mass d rho Hd H0))
    in Hrho0.
  assert (2 <= rho / (d / 2)).
  { apply Rmult_le_reg_r with (d / 2); [lra|].
    replace (rho / (d / 2) * (d / 2)) with rho by (field; lra). lra. }
  assert (4 <= (rho / (d / 2)) ^ 2) by nra.
  rewrite Rabs_right in Hrho0 by lra. lra.
Qed.

(** A function that vanishes inside an interval is a step function on it. *)
Lemma null_inside_step (h : R → R) (a b : R) :
  a <= b → (∀ x, a < x < b → h x = 0) → IsStepFun h a b.
Proof.
  intros Hab Hh. exists [a; b]. exists [0]. repeat split.
  - intros i Hi. cbn in Hi. assert (i = O) as -> by lia. cbn. done.
  - cbn. by rewrite Rmin_left.
  - cbn. by rewrite Rmax_right.
  - intros i Hi. cbn in Hi. assert (i = O) as -> by lia.
    intros x Hx. cbn in *. apply Hh. exact Hx.
Qed.

Lemma null_inside_integrable (h : R → R) (a b : R) :
  a <= b → (∀ x, a < x < b → h x = 0) → Riemann_integrable h a b.
Proof.
  intros Hab Hh eps.
  exists (mkStepFun (null_inside_step h a b Hab Hh)).
  exists (mkStepFun (StepFun_P4 a b 0)).
  split.
  - intros t _. cbn. rewrite Rminus_diag, Rabs_R0. unfold fct_cte. lra.
  - rewrite StepFun_P18, Rmult_0_l, Rabs_R0. apply eps.
Qed.

Lemma ring_top_hat_inside (d x : R) :
  x < d / 2 → ring (top_hat_density d) x = ring (uniform_density d) x.
Proof.
  intros Hx. unfold ring, top_hat_density, uniform_density.
  by destruct (Rlt_dec x (d / 2)).
Qed.

Lemma ring_top_hat_outside (d x : R) : d / 2 <= x → ring (top_hat_density d) x = 0.
Proof.
  intros Hx. unfold ring, top_hat_density.
  destruct (Rlt_dec x (d / 2)); [lra|ring].
Qed.

Lemma top_hat_disc_mass_inside (d rho : R) :
  0 < d → 0 <= rho → rho < d / 2 →
  integrates_over_disc (top_hat_density d) rho ((rho / (d / 2)) ^ 2).
Proof.
  intros Hd Hrho Hin.
  destruct (uniform_disc_mass d rho Hd Hrho) as [prg Hg].
  assert (pf : Riemann_integrable (ring (top_hat_density d)) 0 rho).
  { apply Riemann_integrable_ext with (ring (uniform_density d)); [|exact prg].
    intros x Hx. rewrite Rmin_left, Rmax_right in Hx by lra.
    symmetry. apply ring_top_hat_inside. lra. }
  exists pf. rewrite <- Hg. apply RiemannInt_P18; [done|].
  intros x Hx. apply ring_top_hat_inside. lra.
Qed.

Lemma top_hat_disc_mass_beyond (d rho : R) :
  0 < d → d / 2 <= rho → integrates_over_disc (top_hat_density d) rho 1.
Proof.
  intros Hd Hout.
  set (a := d / 2) in *. assert (Ha : 0 < a) by (unfold a; lra).
  set (f := ring (top_hat_density d)). set (g := ring (uniform_density d)).
  destruct (uniform_disc_mass d a Hd) as [prg Hg]; [lra|]. fold g in prg, Hg.
  assert (Hone : (a / (d / 2)) ^ 2 = 1) by (unfold a; field; lra).
  rewrite Hone in Hg.
  assert (ph : Riemann_integrable (λ x, g x - f x) 0 a).
  { apply null_inside_integrable; [lra|]. intros x Hx. unfold f, g.
    rewrite ring_top_hat_inside by (fold a; lra). ring. }
  assert (pfa : Riemann_integrable f 0 a).
  { apply Riemann_integrable_ext with (λ x, g x + -1 * (g x - f x)).
    - intros x _. ring.
    - by apply RiemannInt_P10. }
  assert (Hfa : RiemannInt pfa = 1).
  { rewrite <- Hg. apply RiemannInt_P18; [lra|]. intros x Hx.
    apply ring_top_hat_inside. fold a. lra. }
  assert (pfb : Riemann_integrable f a rho).
  { apply Riemann_integrable_ext with (fct_cte 0); [|apply RiemannInt_P14].
    intros x Hx. rewrite Rmin_left, Rmax_right in Hx by lra.
    unfold fct_cte, f. symmetry. apply ring_top_hat_outside. fold a. lra. }
  assert (Hfb : RiemannInt pfb = 0).
  { rewrite (RiemannInt_P18 pfb (RiemannInt_P14 a rho 0)); [|lra|].
    - rewrite RiemannInt_P15. ring.
    - intros x Hx. unfold fct_cte, f. apply ring_top_hat_outside. fold a. lra. }
  exists (RiemannInt_P24 pfa pfb).
  rewrite <- (RiemannInt_P26 pfa pfb). lra.
Qed.

Lemma top_hat_plane (d : R) : 0 < d → integrates_over_plane (top_hat_density d) 1.
Proof.
  intros Hd.
  exists (λ rho, if Rle_dec (d / 2) rho then 1 else (rho / (d / 2)) ^ 2). split.
  - intros rho Hrho. destruct (Rle_dec (d / 2) rho).
    + by apply top_hat_disc_mass_beyond.
    + apply top_hat_disc_mass_inside; lra.
  - intros eps Heps. exists (d / 2). intros rho Hrho _.
    destruct (Rle_dec (d / 2) rho); [|lra].
    by rewrite Rminus_diag, Rabs_R0.
Qed.

(** The normal density of the plane integrates to 1. *)
Lemma derivable_pt_lim_exp_square (k x : R) :
  derivable_pt_lim (λ r, exp (k * r ^ 2)) x (exp (k * x ^ 2) * (2 * k * x)).
Proof.
  apply derivable_pt_lim_ext with (Ranalysis1.comp exp (λ r, k * r ^ 2)); [done|].
  apply derivable_pt_lim_comp; [apply derivable_pt_lim_square|apply derivable_pt_lim_exp].
Qed.

Lemma ring_gaussian_eq (sigma x : R) :
  sigma ≠ 0 →
  ring (λ r, gaussian_density r sigma) x
  = (/ sigma ^ 2 * x) * exp (- / (2 * sigma ^ 2) * x ^ 2).
Proof.
  intros Hs. unfold ring, gaussian_density.
  replace (- (x ^ 2 / (2 * sigma ^ 2))) with (- / (2 * sigma ^ 2) * x ^ 2)
    by (field; done).
  field. split; [done|apply PI_neq0].
Qed.

Lemma ring_gaussian_continuous (sigma x : R) :
  sigma ≠ 0 → continuity_pt (ring (λ r, gaussian_density r sigma)) x.
Proof.
  intros Hs.
  apply continuity_pt_locally_ext
    with (f := mult_fct (λ r, / sigma ^ 2 * r) (λ r, exp (- / (2 * sigma ^ 2) * r ^ 2))) (a := 1);
    [lra| |].
  - intros y _. by rewrite ring_gaussian_eq.
  - apply continuity_pt_mult; apply derivable_continuous_pt.
    + eexists. apply derivable_pt_lim_linear.
    + eexists. apply derivable_pt_lim_exp_square.
Qed.

Lemma gaussian_disc_mass (sigma rho : R) :
  sigma ≠ 0 → 0 <= rho →
  integrates_over_disc (λ r, gaussian_density r sigma) rho
    (1 - exp (- / (2 * sigma ^ 2) * rho ^ 2)).
Proof.
  intros Hs Hrho.
  set (k := - / (2 * sigma ^ 2)).
  replace (1 - exp (k * rho ^ 2))
    with ((λ r, - exp (k * r ^ 2)) rho - (λ r, - exp (k * r ^ 2)) 0).
  - apply (disc_integral_by_antiderivative _ (λ r, - exp (k * r ^ 2)));
      [done|intros; by apply ring_gaussian_continuous|].
    intros x _. rewrite ring_gaussian_eq by done. fold k.
    replace (/ sigma ^ 2 * x * exp (k * x ^ 2)) with (- (exp (k * x ^ 2) * (2 * k * x))).
    + apply (derivable_pt_lim_opp (λ r, exp (k * r ^ 2))), derivable_pt_lim_exp_square.
    + unfold k. field. done.
  - cbv beta. replace (k * 0 ^ 2) with 0 by ring. rewrite exp_0. ring.
Qed.

Lemma gaussian_plane (sigma : R) :
  sigma ≠ 0 → integrates_over_plane (λ r, gaussian_density r sigma) 1.
Proof.
  intros Hs.
  exists (λ rho, 1 - exp (- / (2 * sigma ^ 2) * rho ^ 2)). split.
  - intros rho Hrho. by apply gaussian_disc_mass.
  - intros eps Heps.
    assert (Hk : 0 < / (2 * sigma ^ 2)).
    { apply Rinv_0_lt_compat. assert (0 < sigma ^ 2) by (destruct (Rtotal_order sigma 0) as [?|[?|?]]; [nra|done|nra]). lra. }
    set (k := / (2 * sigma ^ 2)) in *.
    exists (Rmax 1 ((1 - ln eps) / k)). intros rho Hrho _.
    assert (H1 : 1 <= rho) by (eapply Rle_trans; [apply Rmax_l|exact Hrho]).
    assert (H2 : (1 - ln eps) / k <= rho) by (eapply Rle_trans; [apply Rmax_r|exact Hrho]).
    assert (H3 : 1 - ln eps <= k * rho).
    { apply Rmult_le_compat_l with (r := k) in H2; [|lra].
      replace (k * ((1 - ln eps) / k)) with (1 - ln eps) in H2 by (field; lra). done. }
    assert (H5 : k * rho <= k * rho ^ 2).
    { replace (k * rho ^ 2) with (k * rho * rho) by ring.
      rewrite <- (Rmult_1_r (k * rho)) at 1. apply Rmult_le_compat_l; [nra|done]. }
    assert (H4 : - k * rho ^ 2 < ln eps) by lra.
    apply exp_increasing in H4. rewrite exp_ln in H4 by done.
    replace (1 - exp (- k * rho ^ 2) - 1) with (- exp (- k * rho ^ 2)) by ring.
    rewrite Rabs_Ropp, Rabs_right; [done|]. left. apply exp_pos.
Qed.

Lemma integrates_over_plane_ext (p q : R → R) (v : R) :
  (∀ r, q r = p r) → integrates_over_plane p v → integrates_over_plane q v.
Proof.
  intros Heq (mass & Hmass & Hlim). exists mass. split; [|exact Hlim].
  intros rho Hrho. destruct (Hmass rho Hrho) as [pr Hpr].
  assert (pq : Riemann_integrable (ring q) 0 rho).
  { apply Riemann_integrable_ext with (ring p); [|exact pr].
    intros x _. unfold ring. by rewrite Heq. }
  exists pq. rewrite <- Hpr. apply RiemannInt_P18; [done|].
  intros x _. unfold ring. by rewrite Heq.
Qed.

Section ProfileClaim.
Context {K : constants.t} {P : condortools.profiles} {V : Variation.t}.

Lemma gaussian_sigma_pos (d : R) : 0 < d → 0 < d / (2 * sqrt (2 * ln 2)).
Proof.
  intros Hd. apply Rdiv_lt_0_compat; [done|].
  assert (0 < sqrt (2 * ln 2)); [|lra].
  apply sqrt_lt_R0. pose proof ln_lt_2. lra.
Qed.

(** C4, as the code has it.  For every positive focus diameter d:
    the top-hat density returned by get_profile integrates to 1 over the
    plane.  The Gaussian density returned is the library's gaussian_2dnorm
    at sigma = d/(2·√(2·ln 2)) > 0, and integrates to 1 when that function
    is the closed-form Gaussian density of the plane; the pseudo-Lorentzian
    density returned is the library's pseudo_lorentzian_2dnorm at
    sigma = d/2 > 0; both integrate to 1 when the library's densities are
    2D-normalized for every positive sigma, as the spec describes them.
    The default constant density does not: over the disc of radius rho it
    integrates to (rho/(d/2))², which is 1 on the focus disc of radius d/2
    and grows without bound, so it has no integral 1 over the plane. *)
Theorem profile_normalisation (s : Source) (d : R) :
  focus_diameter s = Some d → 0 < d →
  (_profile_model s = Some (Some "top_hat") →
     profile_of s (top_hat_density d) [] ∧
     integrates_over_plane (top_hat_density d) 1) ∧
  (_profile_model s = Some (Some "gaussian") →
     let sigma := d / (2 * sqrt (2 * ln 2)) in
     0 < sigma ∧
     (∃ t, profile_of s (λ r, condortools.gaussian_2dnorm r sigma) t) ∧
     ((∀ r, condortools.gaussian_2dnorm r sigma = gaussian_density r sigma) →
        integrates_over_plane (λ r, condortools.gaussian_2dnorm r sigma) 1) ∧
     (normalized_2d → integrates_over_plane (λ r, condortools.gaussian_2dnorm r sigma) 1)) ∧
  (_profile_model s = Some (Some "pseudo_lorentzian") →
     let sigma := d / 2 in
     0 < sigma ∧
     (∃ t, profile_of s (λ r, condortools.pseudo_lorentzian_2dnorm r sigma) t) ∧
     (normalized_2d →
        integrates_over_plane (λ r, condortools.pseudo_lorentzian_2dnorm r sigma) 1)) ∧
  (_profile_model s = Some None →
     profile_of s (uniform_density d) [] ∧
     integrates_over_disc (uniform_density d) (d / 2) 1 ∧
     (∀ rho, 0 <= rho → integrates_over_disc (uniform_density d) rho ((rho / (d / 2)) ^ 2)) ∧
     ¬ integrates_over_plane (uniform_density d) 1).
Proof.
  intros Hd Hpos.
  split; [|split; [|split]].
  - intros Hpm. split.
    + apply get_profile_top_hat; [done|done|lra].
    + by apply top_hat_plane.
  - intros Hpm sigma.
    assert (Hs : 0 < sigma) by by apply gaussian_sigma_pos.
    split; [done|]. split; [eexists; by apply get_profile_gaussian|]. split.
    + intros Heq.
      apply integrates_over_plane_ext with (λ r, gaussian_density r sigma); [done|].
      apply gaussian_plane. lra.
    + intros [_ Hg]. by apply Hg.
  - intros Hpm sigma.
    assert (Hs : 0 < sigma) by (unfold sigma; lra).
    split; [done|]. split; [eexists; by apply get_profile_pseudo_lorentzian|].
    intros [Hl _]. by apply Hl.
  - intros Hpm. split; [apply get_profile_uniform; [done|done|lra]|]. split; [|split].
    + assert (Hhalf : 0 <= d / 2) by lra.
      pose proof (uniform_disc_mass d (d / 2) Hpos Hhalf) as Hm.
      replace ((d / 2 / (d / 2)) ^ 2) with 1 in Hm by (field; lra). exact Hm.
    + intros rho Hrho. by apply uniform_disc_mass.
    + by apply uniform_plane_diverges.
Qed.

End ProfileClaim.

(** ** The code on concrete inputs *)

Ltac dom_kw :=
  rewrite ?dom_insert_L, ?dom_singleton_L, ?dom_empty_L; set_solver.

Lemma sweep_source_eq :
  sweep_source =
  {| photon := Some {| _energy := Some (299792458 * 6.62606957e-34 / 1e-10) |};
     focus_diameter := Some 1e-6;
     pulse_energy_mean := Some (-1);
     _pulse_energy_variation :=
       Some ({| ramp_mode := Some "range"; ramp_spread := -3; ramp_calls := 0 |}
             : @Variation.state ramp_Variation);
     _profile_model := Some None;
     pulse_energy := None |}.
Proof.
  unfold sweep_source.
  rewrite (Source_new_ok sweep_kwargs 1e-10 1e-6 (-1) None).
  - reflexivity.
  - lra.
  - unfold sweep_kwargs. lookup_kw.
  - unfold sweep_kwargs. lookup_kw.
  - unfold sweep_kwargs. lookup_kw.
  - unfold sweep_kwargs. dom_kw.
  - left. split; [done|]. unfold get_or_None, sweep_kwargs. lookup_kw.
Qed.

Lemma ramp_realization (m : option string) (spread : R) (n j : nat) (mean : R) :
  @realization ramp_Variation {| ramp_mode := m; ramp_spread := spread; ramp_calls := n |} mean j
  = mean - spread + spread * INR (n + j) ∧
  @mode_after ramp_Variation {| ramp_mode := m; ramp_spread := spread; ramp_calls := n |} mean j = m.
Proof.
  revert n. induction j as [|j IH]; intros n.
  - unfold realization, mode_after. cbn. by rewrite Nat.add_0_r.
  - destruct (IH (S n)) as [IH1 IH2].
    unfold realization, mode_after in *. cbn [advanced Variation.get ramp_Variation snd] in *.
    cbn [ramp_mode ramp_spread ramp_calls] in *.
    rewrite IH1, IH2. split; [|done]. by replace (n + S j)%nat with (S n + j)%nat by lia.
Qed.

Lemma ramp_second_shot_fails (s : Source (V := ramp_Variation)) (d1 d2 : nat) :
  _pulse_energy_variation s =
    Some ({| ramp_mode := Some "range"; ramp_spread := -3; ramp_calls := 0 |}
          : @Variation.state ramp_Variation) →
  pulse_energy_mean s = Some (-1) →
  let s1 := final (_next_pulse_energy (S d1) s) in
  let r := _next_pulse_energy (S d2) s1 in
  pulse_energy s1 = Some 2 ∧
  result r = Returned () ∧
  trace r = [Logged ERROR "Pulse energy smaller-equals zero. Change your configuration."] ∧
  pulse_energy (final r) = Some 2.
Proof.
  intros Hv0 Hm0 s1 r.
  set (v0 := {| ramp_mode := Some "range"; ramp_spread := -3; ramp_calls := 0 |}) in *.
  assert (Hmode : ∀ j, non_random (@mode_after ramp_Variation v0 (-1) j)).
  { intros j. unfold v0. rewrite (proj2 (ramp_realization _ _ _ _ _)).
    unfold non_random. apply list_elem_of_further, list_elem_of_here. }
  assert (Hr0 : @realization ramp_Variation v0 (-1) 0 = 2).
  { unfold v0. rewrite (proj1 (ramp_realization _ _ _ _ _)). cbn. lra. }
  assert (Hr1 : @realization ramp_Variation (@advanced ramp_Variation v0 (-1) 1) (-1) 0 = -1).
  { unfold v0. cbn. lra. }
  destruct (_next_pulse_energy_non_random d1 s v0 (-1) Hv0 Hm0 (Hmode O))
    as (_ & Hv1 & _ & Hpos).
  destruct Hpos as [_ Hpe1]; [lra|].
  fold s1 in Hv1, Hpe1.
  assert (Hm1 : pulse_energy_mean s1 = Some (-1)).
  { destruct (_next_pulse_energy_keeps (S d1) s) as (_ & _ & H & _).
    fold s1 in H. by rewrite H. }
  rewrite Hr0 in Hpe1. split; [done|].
  destruct (_next_pulse_energy_non_random d2 s1 _ (-1) Hv1 Hm1)
    as (Hres & _ & Hneg & _).
  { unfold v0. cbn. apply list_elem_of_further, list_elem_of_here. }
  destruct Hneg as [Htr Hpe2]; [lra|].
  fold r in Hres, Htr, Hpe2. by rewrite Hpe2.
Qed.

(** C1 fails on the code in its deterministic half.  A source swept in
    mode "range" from mean -1 with spread -3 realizes 2 on its first shot
    and -1 on its second: the second call logs one error record and returns
    normally, and the stored pulse energy is still the 2 of the first
    shot. *)
Lemma deterministic_non_positive_is_not_fatal :
  let s1 := final (@_next_pulse_energy ramp_Variation 1000 sweep_source) in
  let r := @_next_pulse_energy ramp_Variation 1000 s1 in
  pulse_energy s1 = Some 2 ∧
  result r = Returned () ∧
  trace r = [Logged ERROR "Pulse energy smaller-equals zero. Change your configuration."] ∧
  pulse_energy (final r) = Some 2.
Proof.
  apply (ramp_second_shot_fails sweep_source 999 999); by rewrite sweep_source_eq.
Qed.

Lemma normal_source_eq :
  normal_source =
  {| photon := Some {| _energy := Some (299792458 * 6.62606957e-34 / 1e-10) |};
     focus_diameter := Some 1e-6;
     pulse_energy_mean := Some 1;
     _pulse_energy_variation :=
       Some ({| ramp_mode := Some "normal"; ramp_spread := 2; ramp_calls := 0 |}
             : @Variation.state ramp_Variation);
     _profile_model := Some None;
     pulse_energy := None |}.
Proof.
  unfold normal_source.
  rewrite (Source_new_ok normal_kwargs 1e-10 1e-6 1 None).
  - reflexivity.
  - lra.
  - unfold normal_kwargs. lookup_kw.
  - unfold normal_kwargs. lookup_kw.
  - unfold normal_kwargs. lookup_kw.
  - unfold normal_kwargs. dom_kw.
  - left. split; [done|]. unfold get_or_None, normal_kwargs. lookup_kw.
Qed.

Lemma next_pulse_energy_by_mode_witness :
  let r := @_next_pulse_energy ramp_Variation 1000 normal_source in
  result r = Returned () ∧
  trace r = [Logged WARNING "Pulse energy smaller-equals zero. Try again."] ∧
  pulse_energy (final r) = Some 1.
Proof.
  pose proof (@next_pulse_energy_by_mode ramp_Variation normal_source
     {| ramp_mode := Some "normal"; ramp_spread := 2; ramp_calls := 0 |} 1 1000 1) as H.
  destruct H as (_ & H & _).
  - by rewrite normal_source_eq.
  - by rewrite normal_source_eq.
  - cbv zeta in H.
    rewrite (proj1 (ramp_realization _ _ _ _ _)) in H.
    replace (1 - 2 + 2 * INR (0 + 1)) with 1 in H by (cbn; lra).
    apply H; [|cbn; lra|lia].
    intros j Hj. assert (j = O) as -> by lia.
    rewrite (proj1 (ramp_realization _ _ _ _ _)), (proj2 (ramp_realization _ _ _ _ _)).
    split; [cbn; lra|].
    unfold non_random. intros Hin.
    apply elem_of_cons in Hin as [Hin|Hin]; [discriminate|].
    apply elem_of_cons in Hin as [Hin|Hin]; [discriminate|].
    by apply elem_of_nil in Hin.
Defined.

Lemma top_hat_source_fields :
  _profile_model top_hat_source = Some (Some "top_hat") ∧
  focus_diameter top_hat_source = Some 1e-6 ∧
  pulse_energy top_hat_source = Some 1e-3 ∧
  photon top_hat_source = Some {| _energy := Some (299792458 * 6.62606957e-34 / 1e-10) |}.
Proof.
  unfold top_hat_source.
  rewrite (Source_new_ok top_hat_kwargs 1e-10 1e-6 1e-3 (Some "top_hat"));
    [|lra|unfold top_hat_kwargs; lookup_kw..|unfold top_hat_kwargs; dom_kw|]; cycle 1.
  { right. exists "top_hat". split; [done|]. split.
    - unfold get_or_None, top_hat_kwargs. lookup_kw.
    - apply list_elem_of_here. }
  cbn [final].
  match goal with |- context [_next_pulse_energy _ ?s] => set (s0 := s) end.
  destruct (@first_shot_deterministic ramp_Variation 999 s0
              {| ramp_mode := None; ramp_spread := 0; ramp_calls := 0 |} 1e-3)
    as [Hpe (H1 & H2 & H3 & H4)].
  - subst s0. cbn. unfold get_or_None, top_hat_kwargs. by lookup_kw.
  - done.
  - rewrite (proj2 (ramp_realization _ _ _ _ _)). apply list_elem_of_here.
  - rewrite (proj1 (ramp_realization _ _ _ _ _)). change (INR (0 + 0)) with 0. lra.
  - rewrite (proj1 (ramp_realization _ _ _ _ _)) in Hpe.
    replace (1e-3 - 0 + 0 * INR (0 + 0)) with 1e-3 in Hpe by (change (INR (0 + 0)) with 0; lra).
    rewrite H1, H2, H4, Hpe. done.
Qed.

Lemma uniform_source_fields :
  _profile_model uniform_source = Some None ∧
  focus_diameter uniform_source = Some 2 ∧
  pulse_energy uniform_source = Some 1e-3 ∧
  photon uniform_source = Some {| _energy := Some (299792458 * 6.62606957e-34 / 1e-10) |}.
Proof.
  unfold uniform_source.
  rewrite (Source_new_ok uniform_kwargs 1e-10 2 1e-3 None);
    [|lra|unfold uniform_kwargs; lookup_kw..|unfold uniform_kwargs; dom_kw|]; cycle 1.
  { left. split; [done|]. unfold get_or_None, uniform_kwargs. lookup_kw. }
  cbn [final].
  match goal with |- context [_next_pulse_energy _ ?s] => set (s0 := s) end.
  destruct (@first_shot_deterministic ramp_Variation 999 s0
              {| ramp_mode := None; ramp_spread := 0; ramp_calls := 0 |} 1e-3)
    as [Hpe (H1 & H2 & H3 & H4)].
  - subst s0. cbn. unfold get_or_None, uniform_kwargs. by lookup_kw.
  - done.
  - rewrite (proj2 (ramp_realization _ _ _ _ _)). apply list_elem_of_here.
  - rewrite (proj1 (ramp_realization _ _ _ _ _)). change (INR (0 + 0)) with 0. lra.
  - rewrite (proj1 (ramp_realization _ _ _ _ _)) in Hpe.
    replace (1e-3 - 0 + 0 * INR (0 + 0)) with 1e-3 in Hpe by (change (INR (0 + 0)) with 0; lra).
    rewrite H1, H2, H4, Hpe. done.
Qed.

Lemma codata_energy_nonzero : 299792458 * 6.62606957e-34 / 1e-10 ≠ 0.
Proof. lra. Qed.

Lemma in_unit_ph_m2 (a b c e : R) :
  (if decide ("ph/m2" = "J/m2") then a
   else if decide ("ph/m2" = "ph/m2") then b
   else if decide ("ph/m2" = "J/um2") then c else e) = b.
Proof. by str_decide. Qed.

Lemma top_hat_intensity_witness :
  result (@get_intensity CODATA2010 gaussian_profiles ramp_Variation
            [0; 0; 0] "ph/m2" top_hat_source)
    = Returned (Some (1 / (PI * (1e-6 / 2) ^ 2) * 1e-3
                      / (299792458 * 6.62606957e-34 / 1e-10))) ∧
  result (@get_intensity CODATA2010 gaussian_profiles ramp_Variation
            [0; 1e-6; 1e-6] "ph/m2" top_hat_source) = Returned (Some 0).
Proof.
  destruct top_hat_source_fields as (H1 & H2 & H3 & H4).
  destruct (@top_hat_intensity CODATA2010 gaussian_profiles ramp_Variation top_hat_source
              1e-6 1e-3 (299792458 * 6.62606957e-34 / 1e-10)
              {| _energy := Some (299792458 * 6.62606957e-34 / 1e-10) |} "ph/m2" H1 H2)
    as (_ & _ & _ & _ & G1 & G2);
    [lra|exact H3|lra|exact H4|reflexivity|exact codata_energy_nonzero| |].
  { apply list_elem_of_further, list_elem_of_here. }
  split; [|exact G2]. rewrite G1. cbv beta. by rewrite in_unit_ph_m2.
Defined.

Lemma uniform_source_profile :
  profile_of (P := gaussian_profiles) uniform_source (uniform_density 2) [].
Proof.
  destruct uniform_source_fields as (H1 & H2 & H3 & H4).
  apply get_profile_uniform; [done|done|lra].
Qed.

(** C6 fails on the code in its last part.  On a source with the default
    profile, after its first shot, the unit "W/m2" raises nothing: the call
    returns None, and the only trace is one error record. *)
Lemma get_intensity_unknown_unit_returns_None :
  let r := @get_intensity CODATA2010 gaussian_profiles ramp_Variation
             [0; 0; 0] "W/m2" uniform_source in
  result r = Returned None ∧
  trace r = [Logged ERROR "W/m2 is not a valid unit."].
Proof.
  destruct uniform_source_fields as (H1 & H2 & H3 & H4).
  destruct (@get_intensity_run CODATA2010 gaussian_profiles ramp_Variation
              uniform_source 0 0 0 "W/m2" _ _ 1e-3 uniform_source_profile H3)
    as (_ & _ & _ & _ & H).
  cbv zeta. rewrite H; [cbn [result trace app]; split; reflexivity|].
  intros Hin. repeat (apply elem_of_cons in Hin as [Hin|Hin]; [discriminate|]).
  by apply elem_of_nil in Hin.
Qed.

Lemma get_intensity_by_unit_witness :
  let r := @get_intensity CODATA2010 gaussian_profiles ramp_Variation
             [0; 3; 4] "J/um2" uniform_source in
  final r = uniform_source ∧
  result r = Returned (Some (uniform_density 2 (sqrt (3 ^ 2 + 4 ^ 2)) * 1e-3 * 1e-12)).
Proof.
  destruct uniform_source_fields as (H1 & H2 & H3 & H4).
  destruct (@get_intensity_by_unit CODATA2010 gaussian_profiles ramp_Variation
              uniform_source 0 3 4 "J/um2" _ _ 1e-3 (299792458 * 6.62606957e-34 / 1e-10)
              {| _energy := Some (299792458 * 6.62606957e-34 / 1e-10) |}
              uniform_source_profile H3 H4 eq_refl codata_energy_nonzero)
    as (G0 & _ & _ & G3 & _).
  split; [exact G0|]. by apply G3.
Defined.

(** ** The propagator on concrete inputs *)

(** C8 fails on the code.  With the sample type "cube", construction
    returns normally, and the Input it returns has no sample. *)
Lemma Input_with_unknown_sample_type_is_returned :
  let r := @Input_new bare_classes bare_methods cube_configuration in
  result r = Returned () ∧ sample (final r) = None ∧
  trace r = [Logged ERROR "%s is not a valid sample type."].
Proof. cbv zeta. repeat split. Qed.

Lemma Input_unknown_sample_type_witness :
  let r := @Input_new bare_classes bare_methods cube_configuration in
  result r = Returned () ∧
  trace r = [Logged ERROR "%s is not a valid sample type."] ∧
  detector (final r) = Some (∅ : @propagator.Detector bare_classes) ∧
  source (final r) = Some (∅ : @propagator.Source bare_classes) ∧
  sample (final r) = None.
Proof.
  destruct (@Input_unknown_sample_type bare_classes bare_methods cube_configuration
              cube_configuration ∅ ∅ ∅ ∅ {[ "sample_type" := VStr "cube" ]} (VStr "cube")
              _ _ _ [] [] [] eq_refl eq_refl eq_refl eq_refl eq_refl eq_refl eq_refl
              eq_refl eq_refl eq_refl)
    as (H1 & H2 & H3 & H4).
  split; [exact H1|]. split; [exact H2|]. by rewrite H3.
Defined.

Lemma constructed_output_eq :
  result (@Input_new bare_classes nan_methods sphere_configuration) = Returned () ∧
  result (@Output_new bare_classes nan_methods
            (AnInput (final (@Input_new bare_classes nan_methods sphere_configuration))))
    = Returned () ∧
  constructed_output =
  {| input_object := Some sphere_input;
     amplitudes := Some [[[Complex NaN (Finite 0)]]];
     sample_euler_angle_0 := Some VNone; sample_euler_angle_1 := Some VNone;
     sample_euler_angle_2 := Some VNone; sample_diameter := Some VNone |}.
Proof. repeat split. Qed.

(** C2 fails on the code.  On the output constructed from a propagation
    whose only image is one NaN pixel, get_real_space_image(0) overwrites
    the stored amplitude with zero, and the intensity pattern read
    afterwards is computed from that zero instead of the NaN. *)
Lemma get_real_space_image_mutates_amplitudes :
  let r := @get_real_space_image bare_classes numpy.fft_single_entry 0 constructed_output in
  result (@Input_new bare_classes nan_methods sphere_configuration) = Returned () ∧
  result (@Output_new bare_classes nan_methods
            (AnInput (final (@Input_new bare_classes nan_methods sphere_configuration))))
    = Returned () ∧
  amplitudes constructed_output = Some [[[Complex NaN (Finite 0)]]] ∧
  amplitudes (final r) = Some [[[numpy.zero]]] ∧
  result (@get_intensity_pattern bare_classes nan_methods 0 constructed_output)
    = Returned [[NaN]] ∧
  result (@get_intensity_pattern bare_classes nan_methods 0 (final r))
    = Returned [[Finite (sqrt (0 ^ 2 + 0 ^ 2) ^ 2)]].
Proof. cbv zeta. repeat split. Qed.

Lemma get_real_space_image_sanitizes_in_place_witness :
  let r := @get_real_space_image bare_classes numpy.fft_single_entry 0 constructed_output in
  result r = Returned [[numpy.zero]] ∧
  amplitudes (final r) = Some [[[numpy.zero]]] ∧
  sample_diameter (final r) = Some VNone ∧
  @get_real_space_image bare_classes numpy.fft_single_entry 0 (final r) = r.
Proof.
  destruct (@get_real_space_image_sanitizes_in_place bare_classes nan_methods
              numpy.fft_single_entry constructed_output [[[Complex NaN (Finite 0)]]] 0 0
              [[Complex NaN (Finite 0)]] eq_refl eq_refl eq_refl)
    as (H1 & _ & H3 & H4 & _).
  split; [exact H1|]. split; [by rewrite H3|]. split; [by rewrite H3|exact H4].
Defined.

(** ** The profiles on concrete inputs *)

(** C4 fails on the code for the default profile.  On a source built
    without profile_model and with focus diameter 2, get_profile returns
    the constant density 1/π, whose integral over the disc of radius rho is
    rho², so its integral over the plane is not 1. *)
Lemma uniform_profile_is_not_normalised :
  profile_of (P := gaussian_profiles) uniform_source (uniform_density 2) [] ∧
  integrates_over_disc (uniform_density 2) 2 4 ∧
  ¬ integrates_over_plane (uniform_density 2) 1.
Proof.
  split; [apply uniform_source_profile|]. split.
  - assert (H2 : 0 < 2) by lra. assert (H0 : 0 <= 2) by lra.
    pose proof (uniform_disc_mass 2 2 H2 H0) as Hm.
    replace ((2 / (2 / 2)) ^ 2) with 4 in Hm by (field; lra). exact Hm.
  - apply uniform_plane_diverges. lra.
Qed.

Lemma profile_normalisation_witness :
  profile_of (P := gaussian_profiles) top_hat_source (top_hat_density 1e-6) [] ∧
  integrates_over_plane (top_hat_density 1e-6) 1.
Proof.
  destruct top_hat_source_fields as (H1 & H2 & H3 & H4).
  destruct (@profile_normalisation gaussian_profiles ramp_Variation top_hat_source 1e-6 H2)
    as (H & _).
  - lra.
  - by apply H.
Defined.

(** * Further properties of the code *)

(** ** Photon *)

Section PhotonExtras.
Context {K : constants.t}.

(** X1.  An energy stored in electron volts is read back in electron volts
    unchanged, and read back in Joules as the energy times the elementary
    charge. *)
Theorem Photon_energy_eV_round_trip (ph : Photon) (E : R) :
  0 < constants.e →
  let ph' := final (set_energy E "eV" ph) in
  result (set_energy E "eV" ph) = Returned () ∧
  result (get_energy "eV" ph') = Returned (Some E) ∧
  result (get_energy "J" ph') = Returned (Some (E * constants.e)).
Proof.
  intros He ph'. subst ph'. unfold set_energy. str_decide. cbn [put final result].
  split; [done|]. split.
  - unfold get_energy. str_decide.
    erewrite bind_attr by reflexivity.
    rewrite bind_py_div by lra. cbn. do 2 f_equal. field. lra.
  - by rewrite (get_energy_J _ (E * constants.e)).
Qed.

(** X2.  A unit other than "J" and "eV" is reported and otherwise ignored:
    set_energy logs one error record naming the unit and leaves the photon
    as it was, and get_energy logs the same record and returns None. *)
Theorem Photon_unknown_energy_unit (ph : Photon) (E : R) (unit : string) :
  unit ≠ "J" → unit ≠ "eV" →
  set_energy E unit ph =
    mkRun (Returned ()) ph [Logged ERROR (unit +:+ " is not a valid energy unit.")] ∧
  get_energy unit ph =
    mkRun (Returned None) ph [Logged ERROR (unit +:+ " is not a valid energy unit.")].
Proof.
  intros H1 H2. unfold set_energy, get_energy.
  rewrite !decide_False by done. done.
Qed.

(** X3.  In exact (real) arithmetic, on a photon with a nonzero energy,
    the wavelength times the energy in Joules is c·h, and storing the
    wavelength that was read restores the energy: over the reals the
    conversion is its own inverse. *)
Theorem Photon_wavelength_energy_product (E : R) :
  0 < constants.c → 0 < constants.h → E ≠ 0 →
  let ph := {| _energy := Some E |} in
  ∃ w, result (get_wavelength ph) = Returned w ∧
       w * E = constants.c * constants.h ∧
       set_wavelength w ph = mkRun (Returned ()) ph [].
Proof.
  intros Hc Hh HE ph. subst ph.
  assert (Hch := ch_nonzero Hc Hh).
  exists (constants.c * constants.h / E).
  rewrite get_wavelength_energy by done. split; [reflexivity|]. split.
  { field. done. }
  unfold set_wavelength. rewrite bind_py_div.
  - replace (constants.c * constants.h / (constants.c * constants.h / E)) with E
      by (field; repeat split; first [done | lra]).
    reflexivity.
  - unfold Rdiv. apply Rmult_integral_contrapositive_currified; [done|].
    by apply Rinv_neq_0_compat.
Qed.

(** X4.  The two divisions of the photon fail as Python's do: a zero
    wavelength cannot be stored and leaves the photon untouched, a photon
    with zero energy has no wavelength, and a photon whose energy was never
    assigned has neither a wavelength nor an energy. *)
Theorem Photon_division_errors (ph : Photon) :
  set_wavelength 0 ph = mkRun (Raised ZeroDivisionError) ph [] ∧
  get_wavelength {| _energy := Some 0 |}
    = mkRun (Raised ZeroDivisionError) {| _energy := Some 0 |} [] ∧
  get_wavelength Photon_blank = mkRun (Raised (AttributeError "_energy")) Photon_blank [] ∧
  get_energy "J" Photon_blank = mkRun (Raised (AttributeError "_energy")) Photon_blank [] ∧
  get_energy "eV" Photon_blank = mkRun (Raised (AttributeError "_energy")) Photon_blank [].
Proof.
  repeat split.
  - unfold set_wavelength. apply bind_raised, py_div_zero.
  - unfold get_wavelength. erewrite bind_attr by reflexivity. apply py_div_zero.
Qed.

End PhotonExtras.

(** ** Source *)

Section SourceExtras.
Context {K : constants.t} {P : condortools.profiles} {V : Variation.t}.

Lemma Source_new_illegal (kwargs : gmap string pyval) (k : string) :
  (∀ r, r ∈ ["wavelength"; "focus_diameter"; "pulse_energy"] → is_Some (kwargs !! r)) →
  is_Some (kwargs !! k) →
  k ∉ ["wavelength"; "focus_diameter"; "pulse_energy"] ++
      ["pulse_energy_variation"; "pulse_energy_spread"; "pulse_energy_variation_n";
       "profile_model"] →
  result (Source_new kwargs) = Raised (SystemExit 1) ∧
  final (Source_new kwargs) = Source_blank ∧
  Logged ERROR ("Cannot initialize Source instance. " +:+ k +:+ " is an illegal keyword.")
    ∈ trace (Source_new kwargs).
Proof.
  intros Hreq Hk Hill. unfold Source_new, Source_init, condortools.check_input. cbv zeta.
  rewrite (filter_none (λ k, k ∉ keys kwargs)); cycle 1.
  { intros r Hr Hn. apply Hn, elem_of_keys. by apply Hreq. }
  rewrite (bool_decide_eq_false_2 (0 < length (@nil string))%nat) by (cbn; lia).
  rewrite bind_ret.
  set (ill := filter _ (keys kwargs)).
  assert (Hin : k ∈ ill).
  { subst ill. apply list_elem_of_filter. split; [done|]. by apply elem_of_keys. }
  assert (Hlen : (0 < length ill)%nat).
  { destruct ill; [by apply elem_of_nil in Hin|simpl; lia]. }
  rewrite bind_run.
  rewrite bool_decide_eq_true_2 by done.
  rewrite (bind_run (for_each _ _)), for_each_log. cbn.
  split; [done|]. split; [done|].
  rewrite app_nil_r. apply list_elem_of_fmap. by exists k.
Qed.

(** X5.  Source construction stops with exit(1), before any attribute is
    assigned, as soon as one of wavelength, focus_diameter and pulse_energy
    is missing, or when all three are there and some other keyword is not
    one of the four optional ones; the log names the offending keyword as
    necessary, respectively illegal. *)
Theorem Source_keyword_errors (kwargs : gmap string pyval) (k : string) :
  (k ∈ ["wavelength"; "focus_diameter"; "pulse_energy"] → kwargs !! k = None →
     result (Source_new kwargs) = Raised (SystemExit 1) ∧
     Logged ERROR ("Cannot initialize Source instance. " +:+ k +:+ " is a necessary keyword.")
       ∈ trace (Source_new kwargs)) ∧
  ((∀ r, r ∈ ["wavelength"; "focus_diameter"; "pulse_energy"] → is_Some (kwargs !! r)) →
   is_Some (kwargs !! k) →
   k ∉ ["wavelength"; "focus_diameter"; "pulse_energy"; "pulse_energy_variation";
        "pulse_energy_spread"; "pulse_energy_variation_n"; "profile_model"] →
     result (Source_new kwargs) = Raised (SystemExit 1) ∧
     final (Source_new kwargs) = Source_blank ∧
     Logged ERROR ("Cannot initialize Source instance. " +:+ k +:+ " is an illegal keyword.")
       ∈ trace (Source_new kwargs)).
Proof.
  split.
  - apply Source_new_missing.
  - apply Source_new_illegal.
Qed.

(** X6.  Whenever Source construction returns, the keywords held
    wavelength, focus_diameter and pulse_energy and nothing outside the
    seven known keywords; in particular pulse_energy_mean was not among
    them, so the branch of __init__ that reads it never runs. *)
Theorem Source_returns_only_on_known_keywords (kwargs : gmap string pyval) :
  result (Source_new kwargs) = Returned () →
  is_Some (kwargs !! "wavelength") ∧ is_Some (kwargs !! "focus_diameter") ∧
  is_Some (kwargs !! "pulse_energy") ∧
  (∀ k, is_Some (kwargs !! k) →
        k ∈ ["wavelength"; "focus_diameter"; "pulse_energy"; "pulse_energy_variation";
             "pulse_energy_spread"; "pulse_energy_variation_n"; "profile_model"]) ∧
  kwargs !! "pulse_energy_mean" = None.
Proof.
  intros Hret.
  assert (Hreq : ∀ r, r ∈ ["wavelength"; "focus_diameter"; "pulse_energy"] →
                      is_Some (kwargs !! r)).
  { intros r Hr. destruct (kwargs !! r) eqn:E; [by eexists|].
    destruct (Source_new_missing kwargs r Hr E) as [Hx _]. congruence. }
  assert (Hall : ∀ k, is_Some (kwargs !! k) →
        k ∈ ["wavelength"; "focus_diameter"; "pulse_energy"; "pulse_energy_variation";
             "pulse_energy_spread"; "pulse_energy_variation_n"; "profile_model"]).
  { intros k Hk. destruct (decide (k ∈ ["wavelength"; "focus_diameter"; "pulse_energy";
      "pulse_energy_variation"; "pulse_energy_spread"; "pulse_energy_variation_n";
      "profile_model"])) as [|Hn]; [done|].
    destruct (Source_new_illegal kwargs k Hreq Hk Hn) as [Hx _]. congruence. }
  split; [apply Hreq, list_elem_of_here|].
  split; [apply Hreq, list_elem_of_further, list_elem_of_here|].
  split; [apply Hreq; do 2 apply list_elem_of_further; apply list_elem_of_here|].
  split; [done|].
  destruct (kwargs !! "pulse_energy_mean") eqn:E; [|done].
  assert (Hin := Hall "pulse_energy_mean" ltac:(by rewrite E)).
  repeat (apply elem_of_cons in Hin as [Hin|Hin]; [discriminate|]).
  by apply elem_of_nil in Hin.
Qed.


(** X7.  With the three required keywords, a nonzero wavelength, no unknown
    keyword and a known profile model, Source construction returns after
    the debug record "Source configured": the photon holds c·h/wavelength,
    the focus diameter and the mean pulse energy are the keywords' values,
    the sampler is built from the three variation keywords (None for an
    absent one), and no pulse energy is assigned before the first shot. *)
Theorem Source_construction_state (kwargs : gmap string pyval) (w d pe : R)
    (pm : option string) :
  w ≠ 0 →
  kwargs !! "wavelength" = Some (VFloat w) →
  kwargs !! "focus_diameter" = Some (VFloat d) →
  kwargs !! "pulse_energy" = Some (VFloat pe) →
  dom kwargs ⊆ list_to_set (["wavelength"; "focus_diameter"; "pulse_energy"] ++
    ["pulse_energy_variation"; "pulse_energy_spread"; "pulse_energy_variation_n"; "profile_model"]) →
  (pm = None ∧ get_or_None kwargs "profile_model" = VNone ∨
   ∃ s, pm = Some s ∧ get_or_None kwargs "profile_model" = VStr s ∧
        s ∈ ["top_hat"; "pseudo_lorentzian"; "gaussian"]) →
  let r := Source_new kwargs in
  result r = Returned () ∧ trace r = [Logged DEBUG "Source configured"] ∧
  photon (final r) = Some {| _energy := Some (constants.c * constants.h / w) |} ∧
  focus_diameter (final r) = Some d ∧ pulse_energy_mean (final r) = Some pe ∧
  _pulse_energy_variation (final r) =
    Some (Variation.new (get_or_None kwargs "pulse_energy_variation")
                        (get_or_None kwargs "pulse_energy_spread")
                        (get_or_None kwargs "pulse_energy_variation_n")) ∧
  _profile_model (final r) = Some pm ∧ pulse_energy (final r) = None.
Proof.
  intros Hw Hkw Hkd Hkp Hdom Hpm r. subst r.
  rewrite (Source_new_ok kwargs w d pe pm) by done. repeat split.
Qed.

End SourceExtras.

Section SourceExtras2.
Context {K : constants.t} {P : condortools.profiles} {V : Variation.t}.



(** X9.  The retry of the random modes is bounded only by the interpreter:
    when the first realizations are all ≤ 0, as many as nested calls are
    allowed, the call ends in the recursion error after one warning per
    attempt, and the stored pulse energy is what it was. *)
Theorem next_pulse_energy_recursion_limit (s : Source) (v : Variation.state)
    (mean : R) (depth : nat) :
  _pulse_energy_variation s = Some v → pulse_energy_mean s = Some mean →
  (∀ j, (j < depth)%nat → realization v mean j <= 0 ∧ ¬ non_random (mode_after v mean j)) →
  result (_next_pulse_energy depth s) = Raised RecursionDepthExceeded ∧
  trace (_next_pulse_energy depth s) =
    replicate depth (Logged WARNING "Pulse energy smaller-equals zero. Try again.") ∧
  pulse_energy (final (_next_pulse_energy depth s)) = pulse_energy s.
Proof. intros Hv Hm Hbad. by apply (_next_pulse_energy_exhausts mean depth s v). Qed.

Lemma get_next_after (depth : nat) (s : Source) (t : list event) (s1 : Source)
    (p E : R) (ph : Photon) :
  _next_pulse_energy depth s = mkRun (Returned ()) s1 t →
  pulse_energy s1 = Some p → photon s1 = Some ph → _energy ph = Some E → E ≠ 0 →
  get_next depth s =
  mkRun (Returned {[ "pulse_energy" := p; "wavelength" := constants.c * constants.h / E ]})
        s1 t.
Proof.
  intros Hrun Hp Hph HE Hnz. unfold get_next.
  erewrite bind_step by exact Hrun.
  erewrite bind_attr by eassumption.
  erewrite bind_attr by eassumption.
  erewrite (bind_returned (call _ _)); cycle 1.
  { unfold call. destruct ph as [e]. cbn in HE. subst e.
    rewrite get_wavelength_energy by done. reflexivity. }
  cbn. by rewrite app_nil_r.
Qed.

Lemma run_eta {S A} (r : Run S A) : r = mkRun (result r) (final r) (trace r).
Proof. by destruct r. Qed.

(** X10.  A shot in a deterministic mode with a positive realization
    returns that realization as pulse_energy and, in exact (real)
    arithmetic, the wavelength the photon was built from as wavelength. *)
Theorem get_next_returns_the_shot (s : Source) (v : Variation.state) (mean w : R)
    (depth : nat) :
  0 < constants.c → 0 < constants.h → w ≠ 0 →
  photon s = Some {| _energy := Some (constants.c * constants.h / w) |} →
  _pulse_energy_variation s = Some v → pulse_energy_mean s = Some mean →
  non_random (mode_after v mean 0) → 0 < realization v mean 0 →
  result (get_next (S depth) s)
  = Returned {[ "pulse_energy" := realization v mean 0; "wavelength" := w ]}.
Proof.
  intros Hc Hh Hw Hph Hv Hm Hmode Hpos.
  destruct (_next_pulse_energy_non_random depth s v mean Hv Hm Hmode) as (Hres & _ & _ & H).
  destruct (H Hpos) as [Htr Hpe].
  destruct (_next_pulse_energy_keeps (S depth) s) as (Hk & _).
  assert (Hch := ch_nonzero Hc Hh).
  rewrite (get_next_after (S depth) s [] (final (_next_pulse_energy (S depth) s))
             (realization v mean 0) (constants.c * constants.h / w)
             {| _energy := Some (constants.c * constants.h / w) |}).
  - cbn [result].
    replace (constants.c * constants.h / (constants.c * constants.h / w)) with w
      by (field; repeat split; first [done | lra]).
    reflexivity.
  - rewrite (run_eta (_next_pulse_energy (S depth) s)) at 1. by rewrite Hres, Htr.
  - done.
  - by rewrite Hk.
  - done.
  - unfold Rdiv. apply Rmult_integral_contrapositive_currified; [done|].
    by apply Rinv_neq_0_compat.
Qed.

(** X11.  A shot in a deterministic mode with a realization ≤ 0 is not
    reported to the caller as such.  On a source that never had a shot,
    get_next fails with a missing pulse_energy attribute after the error
    record; on a source that had one, get_next returns the pulse energy of
    the earlier shot. *)
Theorem get_next_after_non_positive_realization (s : Source) (v : Variation.state)
    (mean E : R) (ph : Photon) (depth : nat) :
  _pulse_energy_variation s = Some v → pulse_energy_mean s = Some mean →
  non_random (mode_after v mean 0) → realization v mean 0 <= 0 →
  photon s = Some ph → _energy ph = Some E → E ≠ 0 →
  (pulse_energy s = None →
     result (get_next (S depth) s) = Raised (AttributeError "pulse_energy") ∧
     trace (get_next (S depth) s) =
       [Logged ERROR "Pulse energy smaller-equals zero. Change your configuration."]) ∧
  (∀ p0, pulse_energy s = Some p0 →
     result (get_next (S depth) s)
       = Returned {[ "pulse_energy" := p0; "wavelength" := constants.c * constants.h / E ]} ∧
     trace (get_next (S depth) s) =
       [Logged ERROR "Pulse energy smaller-equals zero. Change your configuration."]).
Proof.
  intros Hv Hm Hmode Hle Hph HE Hnz.
  destruct (_next_pulse_energy_non_random depth s v mean Hv Hm Hmode) as (Hres & _ & H & _).
  destruct (H Hle) as [Htr Hpe].
  destruct (_next_pulse_energy_keeps (S depth) s) as (Hk & _).
  pose proof (run_eta (_next_pulse_energy (S depth) s)) as Heta.
  rewrite Hres, Htr in Heta.
  split.
  - intros Hnone. unfold get_next.
    erewrite bind_step by exact Heta.
    rewrite bind_attr_unassigned by (by rewrite Hpe). done.
  - intros p0 Hp0.
    rewrite (get_next_after (S depth) s _ _ p0 E ph Heta); try done.
    + by rewrite Hpe.
    + by rewrite Hk.
Qed.

(** X12.  The intensity depends on the position through y² + z² only: the
    coordinate along the beam plays no part, and two positions at the same
    distance from the axis get the same result, whatever the unit and
    whatever state the source is in. *)
Theorem get_intensity_is_radial (s : Source) (unit : string) (x y z x' y' z' : R) :
  y ^ 2 + z ^ 2 = y' ^ 2 + z' ^ 2 →
  get_intensity [x; y; z] unit s = get_intensity [x'; y'; z'] unit s.
Proof.
  intros Hr. unfold get_intensity.
  rewrite !(bind_returned (item _ _)) with (a := y) (s' := s) by reflexivity.
  rewrite !(bind_returned (item _ _)) with (a := z) (s' := s) by reflexivity.
  symmetry.
  rewrite !(bind_returned (item _ _)) with (a := y') (s' := s) by reflexivity.
  rewrite !(bind_returned (item _ _)) with (a := z') (s' := s) by reflexivity.
  by rewrite Hr.
Qed.

(** X13.  get_intensity needs a position with three coordinates and a
    source that has had a shot: a shorter position raises IndexError before
    anything else is looked at, and on a source whose pulse energy was
    never assigned the call raises the missing attribute, for every unit,
    also for one it does not know. *)
Theorem get_intensity_errors (s : Source) (unit : string) (x y z : R)
    (p : R → R) (t : list event) :
  result (get_intensity [] unit s) = Raised IndexError ∧
  result (get_intensity [x] unit s) = Raised IndexError ∧
  result (get_intensity [x; y] unit s) = Raised IndexError ∧
  (profile_of s p t → pulse_energy s = None →
     result (get_intensity [x; y; z] unit s) = Raised (AttributeError "pulse_energy")).
Proof.
  repeat split.
  intros (f & Hf & Hp) Hpe. unfold get_intensity.
  do 2 (erewrite bind_returned by reflexivity).
  erewrite bind_step by exact Hf.
  erewrite bind_returned by apply Hp.
  by rewrite bind_attr_unassigned.
Qed.

End SourceExtras2.

(** ** Input and Output *)

Section InputExtras.
Context {C : propagator.classes} {Meth : methods}.

(** X14.  When the configuration resolves and the detector and the source
    are built, the sample of the Input is the object that the class named
    by sample_type builds from the sample section: SampleSphere for
    uniform_sphere, SampleSpheroid for uniform_spheroid and SampleMap for
    map3d, each receiving the whole sample section as keywords.
    Construction then returns; Input's own code logs nothing, so the log is
    what the four constructors logged, in the order configuration,
    detector, source, sample; both changed-flags are False, and the other
    attributes are as the sample's constructor left them. *)
Theorem Input_sample_by_type (conf : propagator.configuration_arg)
    (cfg : propagator.Configuration) (det : propagator.Detector)
    (src : propagator.Source) (smp : propagator.Sample)
    (kd ks kw : gmap string pyval) (ty : string)
    (s1 s2 s3 s4 : Input) (t1 t2 t3 t4 : list event) :
  new_Configuration conf (this_dir +:+ "/data/default.conf")
    (final (assign_default_configuration (this_dir +:+ "/data/default.conf") Input_blank))
    = mkRun (Returned cfg) s1 t1 →
  confDict cfg !! "detector" = Some kd →
  new_Detector kd (final (assign_configuration cfg s1)) = mkRun (Returned det) s2 t2 →
  confDict cfg !! "source" = Some ks →
  new_Source ks (final (assign_detector det s2)) = mkRun (Returned src) s3 t3 →
  confDict cfg !! "sample" = Some kw → kw !! "sample_type" = Some (VStr ty) →
  (ty = "uniform_sphere" ∧
     new_SampleSphere kw (final (assign_source src s3)) = mkRun (Returned smp) s4 t4 ∨
   ty = "uniform_spheroid" ∧
     new_SampleSpheroid kw (final (assign_source src s3)) = mkRun (Returned smp) s4 t4 ∨
   ty = "map3d" ∧
     new_SampleMap kw (final (assign_source src s3)) = mkRun (Returned smp) s4 t4) →
  let r := Input_new conf in
  result r = Returned () ∧ trace r = t1 ++ t2 ++ t3 ++ t4 ∧
  final r = {| default_configuration := default_configuration s4;
               configuration := configuration s4;
               detector := detector s4; source := source s4; sample := Some smp;
               _photon_changed := Some false; _detector_changed := Some false |}.
Proof.
  intros Hcfg Hkd Hdet Hks Hsrc Hkw Hty Hcase r. subst r.
  unfold Input_new, Input_init.
  rewrite (bind_returned (assign_default_configuration (this_dir +:+ "/data/default.conf"))
             _ Input_blank
             (final (assign_default_configuration (this_dir +:+ "/data/default.conf")
                       Input_blank)) ()) by reflexivity.
  rewrite bind_run.
  rewrite (_reconfigure_upto_sample conf (this_dir +:+ "/data/default.conf")
             cfg det src kd ks
             (final (assign_default_configuration (this_dir +:+ "/data/default.conf")
                       Input_blank))
             s1 s2 s3 t1 t2 t3 eq_refl Hcfg Hkd Hdet Hks Hsrc).
  unfold section_of. rewrite Hkw, bind_ret.
  unfold subscript. rewrite Hty, bind_ret.
  destruct Hcase as [[-> Hnew]|[[-> Hnew]|[-> Hnew]]]; cbn [is_str];
    repeat (case_bool_decide; try done);
    erewrite bind_step by exact Hnew;
    cbn; rewrite !app_nil_r; repeat split.
Qed.

(** X15.  A configuration without a sample section, or whose sample
    section has no sample_type, makes Input construction fail with the
    missing key.  The configuration, the detector and the source have been
    built by then: the log is what their constructors logged, the source is
    assigned, and the other attributes are as the source's constructor left
    them. *)
Theorem Input_missing_sample_key (conf : propagator.configuration_arg)
    (cfg : propagator.Configuration) (det : propagator.Detector)
    (src : propagator.Source) (kd ks : gmap string pyval)
    (s1 s2 s3 : Input) (t1 t2 t3 : list event) :
  new_Configuration conf (this_dir +:+ "/data/default.conf")
    (final (assign_default_configuration (this_dir +:+ "/data/default.conf") Input_blank))
    = mkRun (Returned cfg) s1 t1 →
  confDict cfg !! "detector" = Some kd →
  new_Detector kd (final (assign_configuration cfg s1)) = mkRun (Returned det) s2 t2 →
  confDict cfg !! "source" = Some ks →
  new_Source ks (final (assign_detector det s2)) = mkRun (Returned src) s3 t3 →
  let r := Input_new conf in
  let after_source :=
    {| default_configuration := default_configuration s3;
       configuration := configuration s3;
       detector := detector s3; source := Some src; sample := sample s3;
       _photon_changed := _photon_changed s3;
       _detector_changed := _detector_changed s3 |} in
  (confDict cfg !! "sample" = None →
     result r = Raised (KeyError "sample") ∧ trace r = t1 ++ t2 ++ t3 ∧
     final r = after_source) ∧
  (∀ kw, confDict cfg !! "sample" = Some kw → kw !! "sample_type" = None →
     result r = Raised (KeyError "sample_type") ∧ trace r = t1 ++ t2 ++ t3 ∧
     final r = after_source).
Proof.
  intros Hcfg Hkd Hdet Hks Hsrc r after_source. subst r after_source.
  unfold Input_new, Input_init.
  rewrite (bind_returned (assign_default_configuration (this_dir +:+ "/data/default.conf"))
             _ Input_blank
             (final (assign_default_configuration (this_dir +:+ "/data/default.conf")
                       Input_blank)) ()) by reflexivity.
  rewrite bind_run.
  rewrite (_reconfigure_upto_sample conf (this_dir +:+ "/data/default.conf")
             cfg det src kd ks
             (final (assign_default_configuration (this_dir +:+ "/data/default.conf")
                       Input_blank))
             s1 s2 s3 t1 t2 t3 eq_refl Hcfg Hkd Hdet Hks Hsrc).
  split.
  - intros Hno. unfold section_of. rewrite Hno.
    cbn. rewrite !app_nil_r. repeat split.
  - intros kw Hkw Hno. unfold section_of. rewrite Hkw, bind_ret.
    unfold subscript. rewrite Hno.
    cbn. rewrite !app_nil_r. repeat split.
Qed.

End InputExtras.

Lemma position_of_none {A} (l : list A) (i : Z) :
  (i < - Z.of_nat (length l) ∨ Z.of_nat (length l) ≤ i)%Z → position_of l i = None.
Proof.
  intros H. unfold position_of. case_bool_decide; case_bool_decide; try done; lia.
Qed.

Lemma position_of_negative {A} (l : list A) (i : Z) :
  (0 ≤ i < Z.of_nat (length l))%Z →
  position_of l (i - Z.of_nat (length l)) = Some (Z.to_nat i) ∧
  position_of l i = Some (Z.to_nat i).
Proof.
  intros H. unfold position_of.
  split; repeat case_bool_decide; try lia; f_equal; lia.
Qed.

Lemma zero_non_finite_all_finite (A : array) :
  Forall (Forall (λ z, numpy.isfinite z = true)) (zero_non_finite A).
Proof.
  unfold zero_non_finite. apply Forall_forall. intros row Hrow.
  apply list_elem_of_In, in_map_iff in Hrow as (row0 & <- & _).
  apply Forall_forall. intros z Hz.
  apply list_elem_of_In, in_map_iff in Hz as (z0 & <- & _).
  apply zero_non_finite_entry.
Qed.

Lemma zero_non_finite_fixes_finite (A : array) :
  Forall (Forall (λ z, numpy.isfinite z = true)) A → zero_non_finite A = A.
Proof.
  intros HA. unfold zero_non_finite.
  induction HA as [|row A Hrow _ IH]; [done|]. cbn [map]. f_equal; [|exact IH].
  induction Hrow as [|z row Hz _ IHr]; [done|]. cbn [map]. rewrite Hz. by f_equal.
Qed.

Lemma zero_non_finite_shape (A : array) :
  length (zero_non_finite A) = length A ∧
  map length (zero_non_finite A) = map length A.
Proof.
  unfold zero_non_finite. split; [apply length_map|].
  rewrite map_map. apply map_ext. intros row. apply length_map.
Qed.

Section OutputExtras.
Context {C : propagator.classes} {Meth : methods} {F : numpy.fft}.

(** X16.  Sanitizing keeps the shape of an image, leaves no non-finite
    entry in it, and does nothing to an image that has none. *)
Theorem zero_non_finite_sanitizes (A : array) :
  length (zero_non_finite A) = length A ∧
  map length (zero_non_finite A) = map length A ∧
  Forall (Forall (λ z, numpy.isfinite z = true)) (zero_non_finite A) ∧
  (Forall (Forall (λ z, numpy.isfinite z = true)) A → zero_non_finite A = A).
Proof.
  split; [apply zero_non_finite_shape|]. split; [apply zero_non_finite_shape|].
  split; [apply zero_non_finite_all_finite|apply zero_non_finite_fixes_finite].
Qed.

(** X17.  An image index outside the stored images, below minus their
    number or from their number on, raises IndexError in both image
    accessors, and the object is what it was. *)
Theorem image_index_out_of_range (o : Output) (inp : Input) (det : propagator.Detector)
    (a : list array) (i : Z) :
  input_object o = Some inp → detector inp = Some det → amplitudes o = Some a →
  (i < - Z.of_nat (length a) ∨ Z.of_nat (length a) ≤ i)%Z →
  get_real_space_image i o = mkRun (Raised IndexError) o [] ∧
  result (get_intensity_pattern i o) = Raised IndexError ∧
  final (get_intensity_pattern i o) = o.
Proof.
  intros Hin Hdet Ha Hi.
  assert (Hp := position_of_none a i Hi).
  split.
  - unfold get_real_space_image. erewrite bind_attr by eassumption.
    apply bind_raised. unfold locate. by rewrite Hp.
  - unfold get_intensity_pattern.
    assert (Hd : on_input (attr detector "detector") o = mkRun (Returned det) o []).
    { unfold on_input. rewrite Hin. rewrite attr_assigned with (a := det) by done.
      cbn. f_equal. destruct o. cbn in *. by rewrite Hin. }
    erewrite bind_returned by exact Hd.
    erewrite bind_attr by eassumption.
    erewrite bind_raised; [by split|].
    unfold index. apply bind_raised. unfold locate. by rewrite Hp.
Qed.

(** X18.  A negative image index counts from the end: for 0 ≤ i < n,
    where n is the number of stored images, the index i − n names the same
    image as i, in both image accessors. *)
Theorem image_index_from_the_end (o : Output) (a : list array) (i : Z) :
  amplitudes o = Some a → (0 ≤ i < Z.of_nat (length a))%Z →
  get_real_space_image (i - Z.of_nat (length a)) o = get_real_space_image i o ∧
  get_intensity_pattern (i - Z.of_nat (length a)) o = get_intensity_pattern i o.
Proof.
  intros Ha Hi. destruct (position_of_negative a i Hi) as [Hn Hp].
  assert (Hj : (Z.to_nat i < length a)%nat) by lia.
  destruct (lookup_lt_is_Some_2 a _ Hj) as [A HA].
  split.
  - by rewrite !(get_real_space_image_run o a _ (Z.to_nat i) A).
  - unfold get_intensity_pattern.
    rewrite !bind_run.
    destruct (result (on_input (attr detector "detector") o)) as [det|x]; [|done].
    set (o1 := final (on_input (attr detector "detector") o)).
    assert (Ha1 : amplitudes o1 = Some a) by (unfold o1; by rewrite keeps_on_input).
    rewrite !(bind_attr amplitudes "amplitudes" _ o1 a Ha1).
    rewrite !bind_run.
    rewrite (index_found a (i - Z.of_nat (length a)) (Z.to_nat i) A o1) by done.
    rewrite (index_found a i (Z.to_nat i) A o1) by done.
    done.
Qed.

(** X19.  The two scalar accessors never change the stored amplitudes, and
    the sampling ratio of a sample without a radius is None, found without
    the detector or the source being asked anything. *)
Theorem scalar_accessors_keep_amplitudes (o : Output) (inp : Input)
    (smp : propagator.Sample) :
  amplitudes (final (get_linear_sampling_ratio o)) = amplitudes o ∧
  amplitudes (final (get_full_period_edge_resolution o)) = amplitudes o ∧
  (input_object o = Some inp → sample inp = Some smp → radius smp = None →
     get_linear_sampling_ratio o = mkRun (Returned None) o []).
Proof.
  split; [apply get_linear_sampling_ratio_keeps|].
  split; [apply get_full_period_edge_resolution_keeps|].
  intros Hin Hs Hr. unfold get_linear_sampling_ratio.
  assert (Hd : on_input (attr sample "sample") o = mkRun (Returned smp) o []).
  { unfold on_input. rewrite Hin. rewrite attr_assigned with (a := smp) by done.
    cbn. f_equal. destruct o. cbn in *. by rewrite Hin. }
  erewrite bind_returned by exact Hd. by rewrite Hr.
Qed.

End OutputExtras.

Section OutputInitExtras.
Context {C : propagator.classes} {Meth : methods} {F : numpy.fft}.

(** X20.  An Input whose sample was left unassigned (as construction with
    an unknown sample type leaves it) cannot be propagated: Output
    construction logs that the propagation started and then fails with the
    missing sample attribute, before any amplitude is stored. *)
Theorem Output_of_Input_without_sample (inp : Input) :
  sample inp = None →
  let r := Output_new (AnInput inp) in
  result r = Raised (AttributeError "sample") ∧
  trace r = [Logged DEBUG "Propagation started."] ∧
  input_object (final r) = Some inp ∧ amplitudes (final r) = None.
Proof.
  intros Hs r. subst r. unfold Output_new, Output_init.
  erewrite bind_returned by reflexivity.
  rewrite bind_emit.
  assert (Hon : on_input (_ ← attr sample "sample"; propagate)
                  (final (assign_input_object inp Output_blank))
                = mkRun (Raised (AttributeError "sample"))
                    (final (assign_input_object inp Output_blank)) []).
  { unfold on_input. cbn [assign_input_object final input_object].
    rewrite bind_attr_unassigned by done. reflexivity. }
  erewrite bind_raised by exact Hon. repeat split.
Qed.

(** X21.  Output construction on an Input that has a sample runs the
    propagation once, between the two debug records.  When the returned
    dictionary has amplitudes they are stored as they are, and the three
    Euler angles and the sample diameter are stored from the dictionary,
    None standing for an absent entry; when it has none, construction fails
    with KeyError and no amplitudes are stored. *)
Theorem Output_stores_the_propagation (inp inp' : Input) (smp : propagator.Sample)
    (od : outdict) (t : list event) :
  sample inp = Some smp → propagate inp = mkRun (Returned od) inp' t →
  let r := Output_new (AnInput inp) in
  (∀ a, entry_amplitudes od = Some a →
     result r = Returned () ∧
     trace r = Logged DEBUG "Propagation started." :: t
               ++ [Logged DEBUG "Propagation finished (time = %f sec)"] ∧
     final r = {| input_object := Some inp'; amplitudes := Some a;
                  sample_euler_angle_0 := Some (get_or_None (entries od) "euler_angle_0");
                  sample_euler_angle_1 := Some (get_or_None (entries od) "euler_angle_1");
                  sample_euler_angle_2 := Some (get_or_None (entries od) "euler_angle_2");
                  sample_diameter := Some (get_or_None (entries od) "sample_diameter") |}) ∧
  (entry_amplitudes od = None →
     result r = Raised (KeyError "amplitudes") ∧ amplitudes (final r) = None).
Proof.
  intros Hs Hprop r. subst r. unfold Output_new, Output_init.
  erewrite bind_returned by reflexivity.
  rewrite bind_emit.
  assert (Hon : on_input (_ ← attr sample "sample"; propagate)
                  (final (assign_input_object inp Output_blank))
                = mkRun (Returned od)
                    (final (assign_input_object inp' Output_blank)) t).
  { unfold on_input. cbn [assign_input_object final input_object].
    erewrite bind_attr by eassumption. rewrite Hprop. reflexivity. }
  erewrite bind_step by exact Hon.
  split.
  - intros a Ha. rewrite Ha. cbn. done.
  - intros Ha. rewrite Ha. cbn. done.
Qed.

End OutputInitExtras.
(** ** The further properties on concrete inputs *)

Lemma Photon_energy_eV_round_trip_witness :
  let ph' := final (@set_energy CODATA2010 2 "eV" Photon_blank) in
  result (@set_energy CODATA2010 2 "eV" Photon_blank) = Returned () ∧
  result (@get_energy CODATA2010 "eV" ph') = Returned (Some 2) ∧
  result (@get_energy CODATA2010 "J" ph') = Returned (Some (2 * 1.602176565e-19)).
Proof.
  apply (@Photon_energy_eV_round_trip CODATA2010 Photon_blank 2). codata.
Defined.

Lemma Photon_unknown_energy_unit_witness :
  @set_energy CODATA2010 1 "keV" Photon_blank =
    mkRun (Returned ()) Photon_blank [Logged ERROR "keV is not a valid energy unit."] ∧
  @get_energy CODATA2010 "keV" Photon_blank =
    mkRun (Returned None) Photon_blank [Logged ERROR "keV is not a valid energy unit."].
Proof.
  apply (@Photon_unknown_energy_unit CODATA2010 Photon_blank 1 "keV"); discriminate.
Defined.

Lemma Photon_wavelength_energy_product_witness :
  ∃ w, result (@get_wavelength CODATA2010 {| _energy := Some 2 |}) = Returned w ∧
       w * 2 = 299792458 * 6.62606957e-34 ∧
       @set_wavelength CODATA2010 w {| _energy := Some 2 |}
         = mkRun (Returned ()) {| _energy := Some 2 |} [].
Proof.
  apply (@Photon_wavelength_energy_product CODATA2010 2); codata.
Defined.

Lemma cold_source_eq :
  cold_source =
  {| photon := Some {| _energy := Some (299792458 * 6.62606957e-34 / 1e-10) |};
     focus_diameter := Some 1e-6;
     pulse_energy_mean := Some (-1);
     _pulse_energy_variation :=
       Some ({| ramp_mode := None; ramp_spread := 0; ramp_calls := 0 |}
             : @Variation.state ramp_Variation);
     _profile_model := Some None;
     pulse_energy := None |}.
Proof.
  unfold cold_source.
  rewrite (Source_new_ok cold_kwargs 1e-10 1e-6 (-1) None).
  - reflexivity.
  - lra.
  - unfold cold_kwargs. lookup_kw.
  - unfold cold_kwargs. lookup_kw.
  - unfold cold_kwargs. lookup_kw.
  - unfold cold_kwargs. dom_kw.
  - left. split; [done|]. unfold get_or_None, cold_kwargs. lookup_kw.
Qed.

Lemma top_hat_kwargs_accepted :
  top_hat_kwargs !! "wavelength" = Some (VFloat 1e-10) ∧
  top_hat_kwargs !! "focus_diameter" = Some (VFloat 1e-6) ∧
  top_hat_kwargs !! "pulse_energy" = Some (VFloat 1e-3) ∧
  dom top_hat_kwargs ⊆ list_to_set (["wavelength"; "focus_diameter"; "pulse_energy"] ++
    ["pulse_energy_variation"; "pulse_energy_spread"; "pulse_energy_variation_n"; "profile_model"]) ∧
  get_or_None top_hat_kwargs "profile_model" = VStr "top_hat".
Proof.
  unfold get_or_None, top_hat_kwargs.
  split; [lookup_kw|]. split; [lookup_kw|]. split; [lookup_kw|]. split; [dom_kw|lookup_kw].
Qed.

Lemma Source_returns_only_on_known_keywords_witness :
  is_Some (top_hat_kwargs !! "wavelength") ∧ is_Some (top_hat_kwargs !! "focus_diameter") ∧
  is_Some (top_hat_kwargs !! "pulse_energy") ∧
  (∀ k, is_Some (top_hat_kwargs !! k) →
        k ∈ ["wavelength"; "focus_diameter"; "pulse_energy"; "pulse_energy_variation";
             "pulse_energy_spread"; "pulse_energy_variation_n"; "profile_model"]) ∧
  top_hat_kwargs !! "pulse_energy_mean" = None.
Proof.
  apply (@Source_returns_only_on_known_keywords CODATA2010 ramp_Variation top_hat_kwargs).
  destruct top_hat_kwargs_accepted as (H1 & H2 & H3 & H4 & H5).
  rewrite (Source_new_ok top_hat_kwargs 1e-10 1e-6 1e-3 (Some "top_hat")); try done.
  - lra.
  - right. exists "top_hat". split; [done|]. split; [done|]. apply list_elem_of_here.
Defined.

Lemma Source_construction_state_witness :
  let r := @Source_new CODATA2010 ramp_Variation top_hat_kwargs in
  result r = Returned () ∧ trace r = [Logged DEBUG "Source configured"] ∧
  photon (final r) = Some {| _energy := Some (299792458 * 6.62606957e-34 / 1e-10) |} ∧
  focus_diameter (final r) = Some 1e-6 ∧ pulse_energy_mean (final r) = Some 1e-3 ∧
  _pulse_energy_variation (final r) =
    Some (@Variation.new ramp_Variation
            (get_or_None top_hat_kwargs "pulse_energy_variation")
            (get_or_None top_hat_kwargs "pulse_energy_spread")
            (get_or_None top_hat_kwargs "pulse_energy_variation_n")) ∧
  _profile_model (final r) = Some (Some "top_hat") ∧ pulse_energy (final r) = None.
Proof.
  destruct top_hat_kwargs_accepted as (H1 & H2 & H3 & H4 & H5).
  apply (@Source_construction_state CODATA2010 ramp_Variation top_hat_kwargs
           1e-10 1e-6 1e-3 (Some "top_hat")); try done.
  - lra.
  - right. exists "top_hat". split; [done|]. split; [done|]. apply list_elem_of_here.
Defined.


Lemma next_pulse_energy_recursion_limit_witness :
  result (@_next_pulse_energy ramp_Variation 1 normal_source) = Raised RecursionDepthExceeded ∧
  trace (@_next_pulse_energy ramp_Variation 1 normal_source) =
    [Logged WARNING "Pulse energy smaller-equals zero. Try again."] ∧
  pulse_energy (final (@_next_pulse_energy ramp_Variation 1 normal_source)) = None.
Proof.
  destruct (@next_pulse_energy_recursion_limit ramp_Variation normal_source
     {| ramp_mode := Some "normal"; ramp_spread := 2; ramp_calls := 0 |} 1 1) as (H1 & H2 & H3).
  - by rewrite normal_source_eq.
  - by rewrite normal_source_eq.
  - intros j Hj. assert (j = O) as -> by lia.
    rewrite (proj1 (ramp_realization _ _ _ _ _)), (proj2 (ramp_realization _ _ _ _ _)).
    split; [cbn; lra|].
    unfold non_random. intros Hin.
    apply elem_of_cons in Hin as [Hin|Hin]; [discriminate|].
    apply elem_of_cons in Hin as [Hin|Hin]; [discriminate|].
    by apply elem_of_nil in Hin.
  - split; [exact H1|]. split; [exact H2|].
    rewrite H3. by rewrite normal_source_eq.
Defined.

Lemma get_next_returns_the_shot_witness :
  result (@get_next CODATA2010 ramp_Variation 1000 sweep_source)
  = Returned {[ "pulse_energy" :=
                  @realization ramp_Variation
                    {| ramp_mode := Some "range"; ramp_spread := -3; ramp_calls := 0 |} (-1) 0;
                "wavelength" := 1e-10 ]} ∧
  @realization ramp_Variation
    {| ramp_mode := Some "range"; ramp_spread := -3; ramp_calls := 0 |} (-1) 0 = 2.
Proof.
  assert (Hr : @realization ramp_Variation
    {| ramp_mode := Some "range"; ramp_spread := -3; ramp_calls := 0 |} (-1) 0 = 2).
  { rewrite (proj1 (ramp_realization _ _ _ _ _)). change (INR (0 + 0)) with 0. lra. }
  split; [|exact Hr].
  apply (@get_next_returns_the_shot CODATA2010 ramp_Variation sweep_source
           {| ramp_mode := Some "range"; ramp_spread := -3; ramp_calls := 0 |} (-1) 1e-10 999).
  - codata.
  - codata.
  - lra.
  - by rewrite sweep_source_eq.
  - by rewrite sweep_source_eq.
  - by rewrite sweep_source_eq.
  - rewrite (proj2 (ramp_realization _ _ _ _ _)).
    apply list_elem_of_further, list_elem_of_here.
  - rewrite Hr. lra.
Defined.

Lemma get_next_after_non_positive_realization_witness :
  result (@get_next CODATA2010 ramp_Variation 1000 cold_source)
    = Raised (AttributeError "pulse_energy") ∧
  trace (@get_next CODATA2010 ramp_Variation 1000 cold_source) =
    [Logged ERROR "Pulse energy smaller-equals zero. Change your configuration."].
Proof.
  destruct (@get_next_after_non_positive_realization CODATA2010 ramp_Variation cold_source
     {| ramp_mode := None; ramp_spread := 0; ramp_calls := 0 |} (-1)
     (299792458 * 6.62606957e-34 / 1e-10)
     {| _energy := Some (299792458 * 6.62606957e-34 / 1e-10) |} 999) as [H _].
  - by rewrite cold_source_eq.
  - by rewrite cold_source_eq.
  - rewrite (proj2 (ramp_realization _ _ _ _ _)). apply list_elem_of_here.
  - rewrite (proj1 (ramp_realization _ _ _ _ _)). change (INR (0 + 0)) with 0. lra.
  - by rewrite cold_source_eq.
  - reflexivity.
  - exact codata_energy_nonzero.
  - apply H. by rewrite cold_source_eq.
Defined.

Lemma get_intensity_is_radial_witness :
  @get_intensity CODATA2010 gaussian_profiles ramp_Variation [0; 3; 4] "J/m2" uniform_source
  = @get_intensity CODATA2010 gaussian_profiles ramp_Variation [7; 5; 0] "J/m2" uniform_source.
Proof.
  apply (@get_intensity_is_radial CODATA2010 gaussian_profiles ramp_Variation
           uniform_source "J/m2" 0 3 4 7 5 0).
  lra.
Defined.

Lemma Input_sample_by_type_witness :
  let r := @Input_new bare_classes bare_methods sphere_configuration in
  result r = Returned () ∧ trace r = [] ∧
  detector (final r) = Some (∅ : @propagator.Detector bare_classes) ∧
  source (final r) = Some (∅ : @propagator.Source bare_classes) ∧
  sample (final r) = Some (("SampleSphere", {[ "sample_type" := VStr "uniform_sphere" ]})
                           : @propagator.Sample bare_classes) ∧
  _photon_changed (final r) = Some false ∧ _detector_changed (final r) = Some false.
Proof.
  destruct (@Input_sample_by_type bare_classes bare_methods sphere_configuration
              sphere_configuration ∅ ∅
              ("SampleSphere", {[ "sample_type" := VStr "uniform_sphere" ]})
              ∅ ∅ {[ "sample_type" := VStr "uniform_sphere" ]} "uniform_sphere"
              _ _ _ _ [] [] [] [] eq_refl eq_refl eq_refl eq_refl eq_refl eq_refl eq_refl
              (or_introl (conj eq_refl eq_refl)))
    as (H1 & H2 & H3).
  split; [exact H1|]. split; [exact H2|]. by rewrite H3.
Defined.

Lemma Input_missing_sample_key_witness :
  let r := @Input_new bare_classes bare_methods bare_configuration in
  result r = Raised (KeyError "sample") ∧ trace r = [] ∧
  detector (final r) = Some (∅ : @propagator.Detector bare_classes) ∧
  source (final r) = Some (∅ : @propagator.Source bare_classes).
Proof.
  destruct (@Input_missing_sample_key bare_classes bare_methods bare_configuration
              bare_configuration ∅ ∅ ∅ ∅ _ _ _ [] [] []
              eq_refl eq_refl eq_refl eq_refl eq_refl) as [H _].
  destruct (H eq_refl) as (H1 & H2 & H3).
  split; [exact H1|]. split; [exact H2|]. by rewrite H3.
Defined.

Lemma image_index_out_of_range_witness :
  @get_real_space_image bare_classes numpy.fft_single_entry 1 nan_output
    = mkRun (Raised IndexError) nan_output [] ∧
  result (@get_intensity_pattern bare_classes bare_methods 1 nan_output) = Raised IndexError ∧
  final (@get_intensity_pattern bare_classes bare_methods 1 nan_output) = nan_output.
Proof.
  apply (@image_index_out_of_range bare_classes bare_methods numpy.fft_single_entry
           nan_output nan_input ∅ [[[Complex NaN (Finite 0)]]] 1); try reflexivity.
  right. cbn. lia.
Defined.

Lemma image_index_from_the_end_witness :
  @get_real_space_image bare_classes numpy.fft_single_entry (0 - 1) nan_output
    = @get_real_space_image bare_classes numpy.fft_single_entry 0 nan_output ∧
  @get_intensity_pattern bare_classes bare_methods (0 - 1) nan_output
    = @get_intensity_pattern bare_classes bare_methods 0 nan_output.
Proof.
  apply (@image_index_from_the_end bare_classes bare_methods numpy.fft_single_entry
           nan_output [[[Complex NaN (Finite 0)]]] 0); [reflexivity|cbn; lia].
Defined.

Lemma Output_of_Input_without_sample_witness :
  let r := @Output_new bare_classes bare_methods (AnInput nan_input) in
  result r = Raised (AttributeError "sample") ∧
  trace r = [Logged DEBUG "Propagation started."] ∧
  input_object (final r) = Some nan_input ∧ amplitudes (final r) = None.
Proof.
  apply (@Output_of_Input_without_sample bare_classes bare_methods nan_input). reflexivity.
Defined.

Lemma Output_stores_the_propagation_witness :
  let r := @Output_new bare_classes bare_methods (AnInput sphere_input) in
  result r = Returned () ∧
  trace r = [Logged DEBUG "Propagation started.";
             Logged DEBUG "Propagation finished (time = %f sec)"] ∧
  final r = {| input_object := Some sphere_input; amplitudes := Some [[[numpy.zero]]];
               sample_euler_angle_0 := Some VNone; sample_euler_angle_1 := Some VNone;
               sample_euler_angle_2 := Some VNone; sample_diameter := Some VNone |}.
Proof.
  destruct (@Output_stores_the_propagation bare_classes bare_methods sphere_input sphere_input
              ("SampleSphere", {[ "sample_type" := VStr "uniform_sphere" ]})
              {| entry_amplitudes := Some [[[numpy.zero]]]; entries := ∅ |} [])
    as [H _]; try reflexivity.
  apply (H [[[numpy.zero]]]). reflexivity.
Defined.
